(** * PDF automation tool: the file lifecycle and operation pipeline of app.py

    A shallow embedding of [src/app.py].  The file system is a finite map
    from path strings to files, the wall clock is an oracle that is read by
    [datetime.now()], and every Python function that can raise is a
    computation in a state-and-exception monad.  The PDF library (PyPDF2),
    reportlab and werkzeug are external collaborators: a PDF is modelled by
    the list of its pages, a page by its text, its [/Rotate] entry and the
    overlays merged onto it. *)

From Stdlib Require Import ZArith Lia Ascii String DecimalString DecimalZ.
From stdpp Require Import gmap strings list fin_maps.

Local Open Scope string_scope.
Local Open Scope list_scope.

(** ** Python strings *)

Module PyStr.

(** [c in s] for a one-character needle. *)
Fixpoint contains (c : ascii) (s : string) : bool :=
  match s with
  | EmptyString => false
  | String d r => if decide (d = c) then true else contains c r
  end.

(** The split point of [s.rsplit(sep, 1)]: the text before and after the
    last occurrence of [sep], when there is one. *)
Fixpoint rsplit_last (sep : ascii) (s : string) : option (string * string) :=
  match s with
  | EmptyString => None
  | String c r =>
      match rsplit_last sep r with
      | Some (pre, post) => Some (String c pre, post)
      | None => if decide (c = sep) then Some (EmptyString, r) else None
      end
  end.

(** [s.rsplit(sep, 1)]: a list of two strings, or of [s] alone. *)
Definition rsplit1 (sep : ascii) (s : string) : list string :=
  match rsplit_last sep s with
  | Some (pre, post) => [pre; post]
  | None => [s]
  end.

Definition is_upper (c : ascii) : bool :=
  (65 <=? nat_of_ascii c)%nat && (nat_of_ascii c <=? 90)%nat.

Definition is_lower (c : ascii) : bool :=
  (97 <=? nat_of_ascii c)%nat && (nat_of_ascii c <=? 122)%nat.

Definition lower_char (c : ascii) : ascii :=
  if is_upper c then ascii_of_nat (nat_of_ascii c + 32) else c.

Definition upper_char (c : ascii) : ascii :=
  if is_lower c then ascii_of_nat (nat_of_ascii c - 32) else c.

Fixpoint map_chars (f : ascii -> ascii) (s : string) : string :=
  match s with
  | EmptyString => EmptyString
  | String c r => String (f c) (map_chars f r)
  end.

(** [s.lower()] and [s.upper()] on the ASCII letters. *)
Definition lower : string -> string := map_chars lower_char.
Definition upper : string -> string := map_chars upper_char.

(** [s[:n]] *)
Fixpoint take (n : nat) (s : string) : string :=
  match n, s with
  | S m, String c r => String c (take m r)
  | _, _ => EmptyString
  end.

(** [c * n]: the character [c] repeated [n] times. *)
Fixpoint replicate (n : nat) (c : ascii) : string :=
  match n with
  | O => EmptyString
  | S m => String c (replicate m c)
  end.

(** [sep.join(parts)] *)
Fixpoint join (sep : string) (parts : list string) : string :=
  match parts with
  | [] => EmptyString
  | [p] => p
  | p :: rest => p +:+ sep +:+ join sep rest
  end.

(** [str(n)] for an integer. *)
Definition of_Z (n : Z) : string := NilEmpty.string_of_int (Z.to_int n).

(** [s.startswith(c)] and [s.endswith(c)] for a one-character [c]. *)
Definition startswith (c : ascii) (s : string) : bool :=
  match s with
  | String d _ => bool_decide (d = c)
  | EmptyString => false
  end.

Fixpoint endswith (c : ascii) (s : string) : bool :=
  match s with
  | EmptyString => false
  | String d EmptyString => bool_decide (d = c)
  | String _ r => endswith c r
  end.

(** Truth value of a string: non-empty. *)
Definition truthy (s : string) : bool :=
  match s with EmptyString => false | _ => true end.

(** The [w] least significant decimal digits of [n], most significant
    first: [%02d]-style zero padding for a value that fits. *)
Definition digit (n : nat) : ascii := ascii_of_nat (48 + n mod 10).

Fixpoint fixed (w n : nat) : string :=
  match w with
  | O => EmptyString
  | S w' => String (digit (n / 10 ^ w')) (fixed w' n)
  end.

Definition LF : string := String (ascii_of_nat 10) EmptyString.
Definition DQUOTE : string := String (ascii_of_nat 34) EmptyString.

(** Two strings are equal up to the case of their ASCII letters. *)
Definition ci_equal (a b : string) : Prop := lower a = lower b.

End PyStr.

(** ** Integers from text: [int(s)] *)

(** A reference reading of [int] on text whose characters are the code
    points below 256, with the digit limit CPython sets by default.  The
    routes do not depend on it: they take [int] as a parameter. *)
Module PyInt.

(** The white space of [str] below code point 256. *)
Definition is_space (c : ascii) : bool :=
  let n := nat_of_ascii c in
  (n =? 32)%nat || ((9 <=? n)%nat && (n <=? 13)%nat)
  || ((28 <=? n)%nat && (n <=? 31)%nat) || (n =? 133)%nat || (n =? 160)%nat.

Fixpoint lstrip (s : string) : string :=
  match s with
  | String c r => if is_space c then lstrip r else s
  | EmptyString => EmptyString
  end.

Definition strip (s : string) : string :=
  String.rev (lstrip (String.rev (lstrip s))).

Definition digit_val (c : ascii) : option Z :=
  let n := nat_of_ascii c in
  if (48 <=? n)%nat && (n <=? 57)%nat then Some (Z.of_nat (n - 48)) else None.

(** Digits with single underscores between them; [prev] tells whether
    the previous character was a digit. *)
Fixpoint digits (prev : bool) (acc : Z) (s : string) : option Z :=
  match s with
  | EmptyString => if prev then Some acc else None
  | String c r =>
      match digit_val c with
      | Some d => digits true (10 * acc + d) r
      | None =>
          if bool_decide (c = "_"%char) && prev then digits false acc r
          else None
      end
  end.

(** The number of digit characters of [s]. *)
Fixpoint count_digits (s : string) : nat :=
  match s with
  | EmptyString => O
  | String c r =>
      match digit_val c with
      | Some _ => S (count_digits r)
      | None => count_digits r
      end
  end.

(** [sys.get_int_max_str_digits()] as shipped. *)
Definition max_str_digits : nat := 4300.

(** [int(s)] in base ten: surrounding white space, one optional sign, then
    digits, at most [max_str_digits] of them.  [None] stands for
    [ValueError]. *)
Definition parse (s : string) : option Z :=
  let t := strip s in
  if (max_str_digits <? count_digits t)%nat then None
  else
    match t with
    | String "-" r => Z.opp <$> digits false 0 r
    | String "+" r => digits false 0 r
    | _ => digits false 0 t
    end.

End PyInt.

(** ** Documents, files and the world *)

(** A page as the PDF library shows it: the text [extract_text] returns,
    the [/Rotate] entry, and the labels overlaid by [merge_page]. *)
Record Page := mkPage {
  page_text : string;
  page_rotation : Z;
  page_overlays : list string
}.

Inductive File :=
| Pdf (pages : list Page)
| Text (content : string)
| Raw (bytes : string).

Inductive Exn :=
| FileNotFoundError
| PdfReadError
| OSError
| ValueError
| IndexError.

Inductive Result (A : Type) :=
| Ok (a : A)
| Raise (e : Exn).
Arguments Ok {A} a.
Arguments Raise {A} e.

Record datetime := mkDatetime {
  year : nat; month : nat; day : nat;
  hour : nat; minute : nat; second : nat
}.

(** The world a request runs in: the files on disk by path, which paths
    the operating system lets the process create or overwrite, and the
    clock, whose [n]-th reading is [clock n].

    Paths are told apart by their spelling.  A disk is described by the
    paths spelled the one canonical way, a folder followed by a plain file
    name; two spellings of one file ([uploads/a.pdf] and
    [outputs/../uploads/a.pdf]) are two keys here.  A statement that needs
    an output and an input to be different files therefore asks for plain
    names ([plain_name], [saved] below), for which spelling and file
    agree on a file system that tells names apart by case and has no
    links. *)
Record World := mkWorld {
  files : gmap string File;
  writable : string -> bool;
  clock : nat -> datetime;
  ticks : nat
}.

Definition set_files (w : World) (fs : gmap string File) : World :=
  mkWorld fs (writable w) (clock w) (ticks w).

(** Computations that read and change the world and may raise. *)
Definition M (A : Type) : Type := World -> Result A * World.

Definition ret {A} (a : A) : M A := fun w => (Ok a, w).
Definition raise {A} (e : Exn) : M A := fun w => (Raise e, w).
Definition bind {A B} (m : M A) (k : A -> M B) : M B :=
  fun w => match m w with
           | (Ok a, w') => k a w'
           | (Raise e, w') => (Raise e, w')
           end.
(** [try: m except Exception as e: h e] *)
Definition try_except {A} (m : M A) (h : Exn -> M A) : M A :=
  fun w => match m w with
           | (Ok a, w') => (Ok a, w')
           | (Raise e, w') => h e w'
           end.

Declare Scope py_scope.
Delimit Scope py_scope with py.
Notation "x <- c ;; k" := (bind c (fun x => k))
  (at level 100, c at next level, right associativity) : py_scope.
Notation "c ;;; k" := (bind c (fun _ => k))
  (at level 100, right associativity) : py_scope.
Local Open Scope py_scope.

(** A [for] loop that threads the local variables [s] through its body. *)
Fixpoint for_each {A S} (l : list A) (body : S -> A -> M S) (s : S) : M S :=
  match l with
  | [] => ret s
  | x :: rest => s' <- body s x ;; for_each rest body s'
  end.

(** The handlers of [PDFProcessor] log the error and re-raise it; the log
    is not part of the model. *)
Definition log_and_reraise {A} (m : M A) : M A :=
  try_except m (fun e => raise e).

(** *** The operating system *)

Module os.

(** [os.path.join(a, b)] *)
Definition path_join (a b : string) : string :=
  if PyStr.startswith "/" b then b
  else if negb (PyStr.truthy a) || PyStr.endswith "/" a then a +:+ b
  else a +:+ "/" +:+ b.

(** [os.path.basename(p)] *)
Definition path_basename (p : string) : string :=
  match PyStr.rsplit_last "/" p with
  | Some (_, tail) => tail
  | None => p
  end.

Definition path_exists (p : string) : M bool :=
  fun w => (Ok (bool_decide (is_Some (files w !! p))), w).

Definition remove (p : string) : M unit :=
  fun w => match files w !! p with
           | Some _ => (Ok tt, set_files w (delete p (files w)))
           | None => (Raise FileNotFoundError, w)
           end.

(** [open(p, 'wb')] (or ['w']) followed by writing [f] in full. *)
Definition write_file (p : string) (f : File) : M unit :=
  fun w => if writable w p
           then (Ok tt, set_files w (<[p := f]> (files w)))
           else (Raise OSError, w).

End os.

(** *** The clock *)

Definition datetime_now : M datetime :=
  fun w => (Ok (clock w (ticks w)),
            mkWorld (files w) (writable w) (clock w) (S (ticks w))).

(** [d.strftime('%Y%m%d_%H%M%S')] *)
Definition strftime_stamp (d : datetime) : string :=
  PyStr.fixed 4 (year d) +:+ PyStr.fixed 2 (month d) +:+ PyStr.fixed 2 (day d)
  +:+ "_" +:+
  PyStr.fixed 2 (hour d) +:+ PyStr.fixed 2 (minute d) +:+ PyStr.fixed 2 (second d).

Definition month_name (m : nat) : string :=
  nth (m - 1) ["January"; "February"; "March"; "April"; "May"; "June"; "July";
               "August"; "September"; "October"; "November"; "December"] "".

(** [d.strftime("%B %d, %Y")] *)
Definition strftime_long (d : datetime) : string :=
  month_name (month d) +:+ " " +:+ PyStr.fixed 2 (day d) +:+ ", " +:+ PyStr.fixed 4 (year d).

(** *** The PDF library *)

Module PyPDF2.

(** [PdfReader(path)]: opens and parses the file. *)
Definition PdfReader (p : string) : M (list Page) :=
  fun w => match files w !! p with
           | None => (Raise FileNotFoundError, w)
           | Some (Pdf pages) => (Ok pages, w)
           | Some _ => (Raise PdfReadError, w)
           end.

(** [page.rotate(angle)]: adds [angle] to [/Rotate]; only multiples of
    90 are accepted. *)
Definition rotate (angle : Z) (pg : Page) : M Page :=
  if (angle mod 90 =? 0)%Z
  then ret (mkPage (page_text pg) (page_rotation pg + angle) (page_overlays pg))
  else raise ValueError.

(** [page.merge_page(overlay)] for an overlay page that carries one label. *)
Definition merge_page (label : string) (pg : Page) : Page :=
  mkPage (page_text pg) (page_rotation pg) (page_overlays pg ++ [label]).

(** [pages[i]] with Python's negative indices. *)
Definition index (pages : list Page) (i : Z) : M Page :=
  let n := Z.of_nat (length pages) in
  let j := if (i <? 0)%Z then (i + n)%Z else i in
  if (j <? 0)%Z then raise IndexError
  else match pages !! Z.to_nat j with
       | Some pg => ret pg
       | None => raise IndexError
       end.

End PyPDF2.

(** *** [range] *)

Fixpoint range_go (fuel : nat) (cur stop step : Z) : list Z :=
  match fuel with
  | O => []
  | S fuel' =>
      if (if (0 <? step)%Z then (cur <? stop)%Z else (stop <? cur)%Z)
      then cur :: range_go fuel' (cur + step)%Z stop step
      else []
  end.

(** [range(start, stop, step)]; the distance bounds the number of steps. *)
Definition py_range (start stop step : Z) : M (list Z) :=
  if (step =? 0)%Z then raise ValueError
  else ret (range_go (Z.to_nat (Z.abs (stop - start))) start stop step).

(** ** Validation *)

Definition UPLOAD_FOLDER : string := "uploads".
Definition OUTPUT_FOLDER : string := "outputs".
Definition ALLOWED_EXTENSIONS : gset string := {[ "pdf" ]}.

(** [allowed_file]: the index [[1]] is only evaluated when the name has a
    dot, where [rsplit] returns two parts; [None] below is never reached. *)
Definition allowed_file (filename : string) : bool :=
  PyStr.contains "." filename &&
  match PyStr.rsplit1 "." filename !! 1%nat with
  | Some ext => bool_decide (PyStr.lower ext ∈ ALLOWED_EXTENSIONS)
  | None => false
  end.

Definition generate_filename (base_name extension : string) : M string :=
  now <- datetime_now ;;
  let timestamp := strftime_stamp now in
  ret (base_name +:+ "_" +:+ timestamp +:+ extension).

(** ** [PDFProcessor] *)

Module PDFProcessor.

Definition upload_folder : string := UPLOAD_FOLDER.
Definition output_folder : string := OUTPUT_FOLDER.

Definition merge_pdfs (file_paths : list string) (output_filename : string)
  : M string :=
  log_and_reraise (
    merger <- for_each file_paths (fun merger file_path =>
                present <- os.path_exists file_path ;;
                if (present : bool)
                then pages <- PyPDF2.PdfReader file_path ;;
                     ret (merger ++ pages)
                else ret merger) [] ;;
    let output_path := os.path_join output_folder output_filename in
    os.write_file output_path (Pdf merger) ;;;
    for_each file_paths (fun _ file_path =>
      present <- os.path_exists file_path ;;
      if (present : bool) then os.remove file_path else ret tt) tt ;;;
    ret output_path).

Definition add_watermark (pdf_path watermark_text output_filename : string)
  : M string :=
  log_and_reraise (
    reader_pages <- PyPDF2.PdfReader pdf_path ;;
    let watermark_page := PyStr.upper watermark_text in
    writer <- for_each reader_pages (fun writer page =>
                ret (writer ++ [PyPDF2.merge_page watermark_page page])) [] ;;
    let output_path := os.path_join output_folder output_filename in
    os.write_file output_path (Pdf writer) ;;;
    os.remove pdf_path ;;;
    ret output_path).

(** The entry of [text_content] for the page numbered [page_num]. *)
Definition page_block (page_num : Z) (page : Page) : string :=
  "--- Page " +:+ PyStr.of_Z page_num +:+ " ---" +:+ PyStr.LF
  +:+ page_text page +:+ PyStr.LF.

Definition extract_text (pdf_path : string) : M (string * string) :=
  log_and_reraise (
    reader_pages <- PyPDF2.PdfReader pdf_path ;;
    text_content <- for_each (imap (fun i page => (Z.of_nat i + 1, page)%Z) reader_pages)
                      (fun text_content '(page_num, page) =>
                         ret (text_content ++ [page_block page_num page])) [] ;;
    let full_text := PyStr.join PyStr.LF text_content in
    output_filename <- generate_filename "extracted_text" ".txt" ;;
    let output_path := os.path_join output_folder output_filename in
    os.write_file output_path (Text full_text) ;;;
    os.remove pdf_path ;;;
    ret (output_path,
         if (1000 <? String.length full_text)%nat
         then PyStr.take 1000 full_text +:+ "..."
         else full_text)).

Definition split_pdf (pdf_path : string) (pages_per_file : Z)
  : M (list string) :=
  log_and_reraise (
    reader_pages <- PyPDF2.PdfReader pdf_path ;;
    let total_pages := Z.of_nat (length reader_pages) in
    starts <- py_range 0 total_pages pages_per_file ;;
    output_files <- for_each starts (fun output_files start_page =>
        let end_page := Z.min (start_page + pages_per_file) total_pages in
        page_nums <- py_range start_page end_page 1 ;;
        writer <- for_each page_nums (fun writer page_num =>
                    page <- PyPDF2.index reader_pages page_num ;;
                    ret (writer ++ [page])) [] ;;
        output_filename <-
          generate_filename ("split_pages_" +:+ PyStr.of_Z (start_page + 1)
                             +:+ "-" +:+ PyStr.of_Z end_page) ".pdf" ;;
        let output_path := os.path_join output_folder output_filename in
        os.write_file output_path (Pdf writer) ;;;
        ret (output_files ++ [output_path])) [] ;;
    os.remove pdf_path ;;;
    ret output_files).

Definition rotate_pdf (pdf_path : string) (angle : Z) (output_filename : string)
  : M string :=
  log_and_reraise (
    reader_pages <- PyPDF2.PdfReader pdf_path ;;
    writer <- for_each reader_pages (fun writer page =>
                rotated_page <- PyPDF2.rotate angle page ;;
                ret (writer ++ [rotated_page])) [] ;;
    let output_path := os.path_join output_folder output_filename in
    os.write_file output_path (Pdf writer) ;;;
    os.remove pdf_path ;;;
    ret output_path).

(** The flowables of the cover letter; their styles only affect layout. *)
Inductive Style := title_style | header_style | body_style.
Inductive Flowable :=
| Paragraph (text : string) (style : Style)
| Spacer (width height : nat).

Definition paragraph_text (f : Flowable) : list string :=
  match f with
  | Paragraph text _ => [text]
  | Spacer _ _ => []
  end.

(** [doc.build(story)]: the letter is laid out on one page. *)
Definition build (story : list Flowable) : File :=
  Pdf [mkPage (PyStr.join PyStr.LF (concat (paragraph_text <$> story))) 0 []].

Definition create_cover_letter
    (name position company email phone output_filename : string) : M string :=
  log_and_reraise (
    let output_path := os.path_join output_folder output_filename in
    let story := [Paragraph ("<b>" +:+ name +:+ "</b>") title_style] in
    let story :=
      if PyStr.truthy email || PyStr.truthy phone then
        let contact_info := [] in
        let contact_info :=
          if PyStr.truthy email then contact_info ++ ["Email: " +:+ email]
          else contact_info in
        let contact_info :=
          if PyStr.truthy phone then contact_info ++ ["Phone: " +:+ phone]
          else contact_info in
        story ++ [Paragraph (PyStr.join " | " contact_info) header_style]
      else story in
    let story := story ++ [Spacer 1 20] in
    now <- datetime_now ;;
    let current_date := strftime_long now in
    let story := story ++ [Paragraph current_date body_style; Spacer 1 20] in
    let story := story ++ [Paragraph ("<b>" +:+ company +:+ "</b><br/>Hiring Manager") body_style;
                           Spacer 1 20] in
    let story := story ++ [Paragraph "Dear Hiring Manager," body_style; Spacer 1 12] in
    let body_content := [
      "I am writing to express my strong interest in the " +:+ position
        +:+ " position at " +:+ company
        +:+ ". With my background and passion for this field, I am confident that I would be a valuable addition to your team.";
      "In my previous experience, I have developed strong technical skills and a deep understanding of industry best practices. I am particularly drawn to this opportunity because of your company's reputation for innovation and excellence.";
      "I would welcome the opportunity to discuss how my skills and enthusiasm can contribute to "
        +:+ company
        +:+ "'s continued success. Thank you for considering my application. I look forward to hearing from you soon."
    ] in
    let story := story ++ concat ((fun paragraph =>
                    [Paragraph paragraph body_style; Spacer 1 12]) <$> body_content) in
    let story := story ++ [Spacer 1 20;
                           Paragraph "Sincerely,<br/><br/><br/>" body_style;
                           Paragraph ("<b>" +:+ name +:+ "</b>") body_style] in
    os.write_file output_path (build story) ;;;
    ret output_path).

End PDFProcessor.

(** ** Routes *)

(** An uploaded part of a multipart request. *)
Record FileStorage := mkFileStorage {
  filename : string;
  stream : File
}.

Record Request := mkRequest {
  request_files : list (string * FileStorage);
  request_form : list (string * string)
}.

Inductive Body :=
| ErrorMessage (error : string)
| ErrorException (e : Exn)
| SuccessFile (message filename : string)
| SuccessPreview (message filename preview : string)
| SuccessFiles (message : string) (filenames : list string).

Definition Response : Type := Body * nat.

(** [d.get(key)] and [d.getlist(key)] on a multi-dict. *)
Fixpoint multi_get {V} (key : string) (d : list (string * V)) : option V :=
  match d with
  | [] => None
  | (k, v) :: rest => if decide (k = key) then Some v else multi_get key rest
  end.

Definition multi_getlist {V} (key : string) (d : list (string * V)) : list V :=
  snd <$> filter (fun kv => fst kv = key) d.

Definition form_get (req : Request) (key fallback : string) : string :=
  match multi_get key (request_form req) with
  | Some value => value
  | None => fallback
  end.

(** [file and allowed_file(file.filename)]: an upload is true when its
    filename is not empty. *)
Definition valid_upload (file : FileStorage) : bool :=
  PyStr.truthy (filename file) && allowed_file (filename file).

(** The outermost handler of every route. *)
Definition route (body : M Response) : M Response :=
  try_except body (fun e => ret (ErrorException e, 500%nat)).

Section Routes.

(** [werkzeug.utils.secure_filename] *)
Variable secure_filename : string -> string.

(** [int] on text: the integer read, or nothing where [int] raises
    [ValueError].  Which literals it accepts is up to the interpreter (its
    digit limit, the characters it counts as digits and white space). *)
Variable py_int : string -> option Z.

(** [int(request.form.get(key, default))] with an integer default. *)
Definition form_get_int (req : Request) (key : string) (fallback : Z) : M Z :=
  match multi_get key (request_form req) with
  | None => ret fallback
  | Some text =>
      match py_int text with
      | Some n => ret n
      | None => raise ValueError
      end
  end.

(** [file.save(path)] after sanitising the name. *)
Definition stage (file : FileStorage) : M string :=
  let filename := secure_filename (filename file) in
  let file_path := os.path_join UPLOAD_FOLDER filename in
  os.write_file file_path (stream file) ;;;
  ret file_path.

Definition merge_pdfs_route (req : Request) : M Response :=
  route (
    match multi_get "files" (request_files req) with
    | None => ret (ErrorMessage "No files provided", 400%nat)
    | Some _ =>
        let files := multi_getlist "files" (request_files req) in
        let output_name := form_get req "output_name" "merged.pdf" in
        if (length files <? 2)%nat
        then ret (ErrorMessage "At least 2 files required for merging", 400%nat)
        else
          file_paths <- for_each files (fun file_paths file =>
                          if valid_upload file
                          then file_path <- stage file ;;
                               ret (file_paths ++ [file_path])
                          else ret file_paths) [] ;;
          if (length file_paths <? 2)%nat
          then ret (ErrorMessage "Valid PDF files required", 400%nat)
          else
            output_path <- PDFProcessor.merge_pdfs file_paths output_name ;;
            ret (SuccessFile ("Successfully merged "
                              +:+ PyStr.of_Z (Z.of_nat (length file_paths))
                              +:+ " PDF files")
                             (os.path_basename output_path), 200%nat)
    end).

Definition add_watermark_route (req : Request) : M Response :=
  route (
    match multi_get "file" (request_files req) with
    | None => ret (ErrorMessage "No file provided", 400%nat)
    | Some file =>
        let watermark_text := form_get req "watermark_text" "CONFIDENTIAL" in
        let output_name := form_get req "output_name" "watermarked.pdf" in
        if negb (valid_upload file)
        then ret (ErrorMessage "Valid PDF file required", 400%nat)
        else
          file_path <- stage file ;;
          output_path <- PDFProcessor.add_watermark file_path watermark_text output_name ;;
          ret (SuccessFile ("Watermark " +:+ PyStr.DQUOTE +:+ watermark_text
                            +:+ PyStr.DQUOTE +:+ " added successfully")
                           (os.path_basename output_path), 200%nat)
    end).

Definition extract_text_route (req : Request) : M Response :=
  route (
    match multi_get "file" (request_files req) with
    | None => ret (ErrorMessage "No file provided", 400%nat)
    | Some file =>
        if negb (valid_upload file)
        then ret (ErrorMessage "Valid PDF file required", 400%nat)
        else
          file_path <- stage file ;;
          result <- PDFProcessor.extract_text file_path ;;
          let '(output_path, preview_text) := result in
          ret (SuccessPreview "Text extracted successfully"
                              (os.path_basename output_path) preview_text, 200%nat)
    end).

Definition split_pdf_route (req : Request) : M Response :=
  route (
    match multi_get "file" (request_files req) with
    | None => ret (ErrorMessage "No file provided", 400%nat)
    | Some file =>
        pages_per_file <- form_get_int req "pages_per_file" 1 ;;
        if negb (valid_upload file)
        then ret (ErrorMessage "Valid PDF file required", 400%nat)
        else
          file_path <- stage file ;;
          output_files <- PDFProcessor.split_pdf file_path pages_per_file ;;
          ret (SuccessFiles ("PDF split into "
                             +:+ PyStr.of_Z (Z.of_nat (length output_files))
                             +:+ " files")
                            (os.path_basename <$> output_files), 200%nat)
    end).

Definition rotate_pdf_route (req : Request) : M Response :=
  route (
    match multi_get "file" (request_files req) with
    | None => ret (ErrorMessage "No file provided", 400%nat)
    | Some file =>
        angle <- form_get_int req "angle" 90 ;;
        let output_name := form_get req "output_name" "rotated.pdf" in
        if negb (valid_upload file)
        then ret (ErrorMessage "Valid PDF file required", 400%nat)
        else
          file_path <- stage file ;;
          output_path <- PDFProcessor.rotate_pdf file_path angle output_name ;;
          ret (SuccessFile ("PDF rotated by " +:+ PyStr.of_Z angle +:+ " degrees")
                           (os.path_basename output_path), 200%nat)
    end).

End Routes.

(** ** Vocabulary of the statements *)

(** A path in the inbound staging area. *)
Definition staged (p : string) : Prop :=
  exists name, p = UPLOAD_FOLDER +:+ "/" +:+ name.

(** A file name with no directory part: no slash in it, and not empty,
    [.] or [..]. *)
Definition plain_name (name : string) : Prop :=
  PyStr.contains "/" name = false /\ name <> "" /\ name <> "." /\ name <> "..".

(** The path of a file saved in the staging area under a plain name, as
    the routes save an upload. *)
Definition saved (p : string) : Prop :=
  exists name, p = UPLOAD_FOLDER +:+ "/" +:+ name /\ plain_name name.


(** The pages [merger.append(p)] adds in world [w]; none when [p] is absent. *)
Definition pages_at (w : World) (p : string) : list Page :=
  match files w !! p with
  | Some (Pdf pages) => pages
  | _ => []
  end.

(** [p] is absent or parses as a PDF. *)
Definition readable (w : World) (p : string) : Prop :=
  match files w !! p with
  | Some (Pdf _) | None => True
  | Some _ => False
  end.

(** The bodies of the two loops of [merge_pdfs]. *)
Definition merge_read (merger : list Page) (file_path : string) : M (list Page) :=
  present <- os.path_exists file_path ;;
  if (present : bool)
  then pages <- PyPDF2.PdfReader file_path ;; ret (merger ++ pages)
  else ret merger.

Definition merge_cleanup (_ : unit) (file_path : string) : M unit :=
  present <- os.path_exists file_path ;;
  if (present : bool) then os.remove file_path else ret tt.

(** The files left after removing every path of [paths]. *)
Definition remove_all (paths : list string) (fs : gmap string File) : gmap string File :=
  foldl (fun fs p => delete p fs) fs paths.

(** The page [pg] after [page.rotate(angle)]. *)
Definition rotated (angle : Z) (pg : Page) : Page :=
  mkPage (page_text pg) (page_rotation pg + angle) (page_overlays pg).

(** The text [extract_text] assembles from the pages of a document. *)
Definition full_text (pages : list Page) : string :=
  PyStr.join PyStr.LF
    (imap (fun i page => PDFProcessor.page_block (Z.of_nat i + 1) page) pages).

(** The name [generate_filename] builds when the clock shows [d]. *)
Definition stamped (base_name : string) (d : datetime) (extension : string) : string :=
  base_name +:+ "_" +:+ strftime_stamp d +:+ extension.

(** Where [extract_text] writes when it starts in world [w]. *)
Definition extract_output_path (w : World) : string :=
  os.path_join OUTPUT_FOLDER (stamped "extracted_text" (clock w (ticks w)) ".txt").

(** The world after one reading of the clock. *)
Definition tick (w : World) : World :=
  mkWorld (files w) (writable w) (clock w) (S (ticks w)).

(** The body of the outer loop of [split_pdf]. *)
Definition split_body (reader_pages : list Page) (pages_per_file : Z)
    (output_files : list string) (start_page : Z) : M (list string) :=
  let total_pages := Z.of_nat (length reader_pages) in
  let end_page := Z.min (start_page + pages_per_file) total_pages in
  page_nums <- py_range start_page end_page 1 ;;
  writer <- for_each page_nums (fun writer page_num =>
              page <- PyPDF2.index reader_pages page_num ;;
              ret (writer ++ [page])) [] ;;
  output_filename <-
    generate_filename ("split_pages_" +:+ PyStr.of_Z (start_page + 1)
                       +:+ "-" +:+ PyStr.of_Z end_page) ".pdf" ;;
  let output_path := os.path_join PDFProcessor.output_folder output_filename in
  os.write_file output_path (Pdf writer) ;;;
  ret (output_files ++ [output_path]).

(** The number of chunks of [k] pages that cover [n] pages. *)
Definition ceil_div (n k : nat) : nat := (n + k - 1) / k.

(** The [i]-th chunk, counted from 0: [k] consecutive pages from page
    [i * k], fewer where the document ends. *)
Definition chunk (pages : list Page) (k i : nat) : list Page :=
  take k (drop (i * k) pages).

(** The base name [split_pdf] gives the [i]-th chunk of [n] pages. *)
Definition chunk_base (n k i : nat) : string :=
  "split_pages_" +:+ PyStr.of_Z (Z.of_nat (i * k) + 1)
  +:+ "-" +:+ PyStr.of_Z (Z.min (Z.of_nat (i * k) + Z.of_nat k) (Z.of_nat n)).

(** The artifact of the [i]-th chunk when [split_pdf] starts in world [w]:
    the clock is read once per chunk. *)
Definition chunk_path (w : World) (n k i : nat) : string :=
  os.path_join OUTPUT_FOLDER (stamped (chunk_base n k i) (clock w (ticks w + i)) ".pdf").

(** The files after the chunks numbered [indices] are written. *)
Definition write_chunks (w : World) (pages : list Page) (k : nat)
    (indices : list nat) (fs : gmap string File) : gmap string File :=
  foldl (fun fs i => <[chunk_path w (length pages) k i := Pdf (chunk pages k i)]> fs)
        fs indices.

(** The preview [extract_text] returns for the text [full]. *)
Definition preview_of (full : string) : string :=
  if (1000 <? String.length full)%nat then PyStr.take 1000 full +:+ "..." else full.

(** One invocation of the pipeline on uploaded files. *)
Inductive Operation :=
| Merge (file_paths : list string) (output_filename : string)
| Watermark (pdf_path watermark_text output_filename : string)
| Extract (pdf_path : string)
| Split (pdf_path : string) (pages_per_file : Z)
| Rotate (pdf_path : string) (angle : Z) (output_filename : string).

(** The staged files an operation consumes. *)
Definition inputs (op : Operation) : list string :=
  match op with
  | Merge file_paths _ => file_paths
  | Watermark pdf_path _ _ | Extract pdf_path | Split pdf_path _
  | Rotate pdf_path _ _ => [pdf_path]
  end.

(** The transformation step of an operation; it returns the artifacts. *)
Definition transform (op : Operation) : M (list string) :=
  match op with
  | Merge file_paths output_filename =>
      output_path <- PDFProcessor.merge_pdfs file_paths output_filename ;;
      ret [output_path]
  | Watermark pdf_path watermark_text output_filename =>
      output_path <- PDFProcessor.add_watermark pdf_path watermark_text output_filename ;;
      ret [output_path]
  | Extract pdf_path =>
      result <- PDFProcessor.extract_text pdf_path ;;
      ret [fst result]
  | Split pdf_path pages_per_file => PDFProcessor.split_pdf pdf_path pages_per_file
  | Rotate pdf_path angle output_filename =>
      output_path <- PDFProcessor.rotate_pdf pdf_path angle output_filename ;;
      ret [output_path]
  end.

(** The integer form field [key] is absent or holds text that [int]
    accepts. *)
Definition int_field_ok (py_int : string -> option Z) (req : Request) (key : string)
  : Prop :=
  match multi_get key (request_form req) with
  | None => True
  | Some text => is_Some (py_int text)
  end.

(** Every field of [d] fits the width [strftime_stamp] prints it in. *)
Definition fits (d : datetime) : Prop :=
  (year d < 10 ^ 4 /\ month d < 100 /\ day d < 100 /\
   hour d < 100 /\ minute d < 100 /\ second d < 100)%nat.

(** Sample data: a document whose text is longer than the preview. *)
Definition noon : datetime := mkDatetime 2024 3 7 12 0 0.

Definition long_pages : list Page :=
  [mkPage (PyStr.replicate 1000 "a") 0 []].

Definition long_world : World :=
  mkWorld {[ "uploads/long.pdf" := Pdf long_pages ]} (fun _ => true) (fun _ => noon) 0.


(** Sample data: a three-page document and a one-page document. *)
Definition plain (text : string) : Page := mkPage text 0 [].

Definition three_pages : list Page := [plain "one"; plain "two"; plain "three"].

Definition small_world : World :=
  mkWorld (<[ "uploads/a.pdf" := Pdf three_pages ]>
             {[ "uploads/b.pdf" := Pdf [plain "x"] ]})
          (fun _ => true) (fun _ => noon) 0.

(** Sample data: a staged upload that is not a PDF inside. *)
Definition broken_world : World :=
  mkWorld {[ "uploads/bad.pdf" := Raw "not a pdf" ]} (fun _ => true) (fun _ => noon) 0.

(** Sample data: a text file sent with a page count and an angle that are
    numbers. *)
Definition text_file_request : Request :=
  mkRequest [("file", mkFileStorage "notes.txt" (Raw "hello"))]
            [("pages_per_file", "2"); ("angle", " +1_80 ")].

(** Sample data: a text file sent to the split route with a page count that
    is not a number. *)
Definition bad_count_request : Request :=
  mkRequest [("file", mkFileStorage "notes.txt" (Raw "hello"))]
            [("pages_per_file", "two")].

(** ** The remaining routes *)

(** Every character of [s] is white space: [s.strip()] is empty. *)
Fixpoint blank (s : string) : bool :=
  match s with
  | String c r => PyInt.is_space c && blank r
  | EmptyString => true
  end.

(** [all(values)] on strings *)
Definition all_truthy (values : list string) : bool :=
  forallb PyStr.truthy values.

(** [data.get(key, '')] *)
Definition field (data : list (string * string)) (key : string) : string :=
  match multi_get key data with
  | Some value => value
  | None => ""
  end.

(** [create_cover_letter] (the route).  [data] is the dictionary the route
    reads its fields from: the form of the request, or the JSON object of a
    JSON request whose fields are strings.  [str.strip] removes the white
    space that [int] skips. *)
Definition create_cover_letter_route (data : list (string * string)) : M Response :=
  route (
    let name := PyInt.strip (field data "name") in
    let position := PyInt.strip (field data "position") in
    let company := PyInt.strip (field data "company") in
    let email := PyInt.strip (field data "email") in
    let phone := PyInt.strip (field data "phone") in
    let output_name :=
      match multi_get "output_name" data with
      | Some value => value
      | None => "cover_letter.pdf"
      end in
    if negb (all_truthy [name; position; company])
    then ret (ErrorMessage "Name, position, and company are required", 400%nat)
    else
      output_path <- PDFProcessor.create_cover_letter
                       name position company email phone output_name ;;
      ret (SuccessFile "Cover letter created successfully"
                       (os.path_basename output_path), 200%nat)).

(** What the download route answers: the file as an attachment, or JSON. *)
Inductive Download :=
| Attachment (path : string) (content : File)
| Reply (response : Response).

Section Download.

(** [flask.send_file(path, as_attachment=True)]: it finds a relative path
    from the root of the application and answers with the file, or
    raises. *)
Variable send_file : string -> M Download.

Definition download_file (filename : string) : M Download :=
  try_except (
    let file_path := os.path_join OUTPUT_FOLDER filename in
    present <- os.path_exists file_path ;;
    if (present : bool)
    then send_file file_path
    else ret (Reply (ErrorMessage "File not found", 404%nat)))
  (fun e => ret (Reply (ErrorException e, 500%nat))).

End Download.

(** ** Vocabulary of the further statements *)

(** The path [stage] writes the upload [file] to. *)
Definition stage_path (secure_filename : string -> string) (file : FileStorage) : string :=
  os.path_join UPLOAD_FOLDER (secure_filename (filename file)).

(** The files after the uploads [uploads] are saved, one after the other. *)
Definition stage_all (secure_filename : string -> string) (uploads : list FileStorage)
    (fs : gmap string File) : gmap string File :=
  foldl (fun fs file => <[stage_path secure_filename file := stream file]> fs) fs uploads.

(** The body of the staging loop of the merge route. *)
Definition merge_stage (secure_filename : string -> string)
    (file_paths : list string) (file : FileStorage) : M (list string) :=
  if valid_upload file
  then file_path <- stage secure_filename file ;;
       ret (file_paths ++ [file_path])
  else ret file_paths.

(** The sanitised name of the upload [file] is a plain file name, as the
    names [werkzeug.utils.secure_filename] returns for allowed names are. *)
Definition plain_upload (secure_filename : string -> string) (file : FileStorage) : Prop :=
  plain_name (secure_filename (filename file)).

(** A path no operation can name as its output: it differs from every
    [os.path.join(OUTPUT_FOLDER, name)]. *)
Definition outside_outputs (q : string) : Prop :=
  forall name, q <> os.path_join OUTPUT_FOLDER name.

(** The output name of an operation, where the caller supplies one, is a
    plain file name. *)
Definition plain_output (op : Operation) : Prop :=
  match op with
  | Merge _ name | Watermark _ _ name | Rotate _ _ name => plain_name name
  | Extract _ | Split _ _ => True
  end.

(** Every character of [s] is an ASCII character. *)
Fixpoint is_ascii (s : string) : bool :=
  match s with
  | String c r => (nat_of_ascii c <? 128)%nat && is_ascii r
  | EmptyString => true
  end.

(** Sample data: everything can be written but the second chunk of a
    split of [uploads/a.pdf] in two-page parts. *)
Definition second_chunk_blocked : World :=
  mkWorld (files small_world)
          (fun q => negb (String.eqb q "outputs/split_pages_3-3_20240307_120000.pdf"))
          (fun _ => noon) 0.

(** Sample data: two-part merge requests. *)
Definition upload_c : FileStorage := mkFileStorage "c.pdf" (Pdf three_pages).
Definition upload_d : FileStorage := mkFileStorage "d.PDF" (Pdf [plain "x"]).
Definition upload_notes : FileStorage := mkFileStorage "notes.txt" (Raw "hello").

Definition one_part_request : Request := mkRequest [("files", upload_c)] [].

Definition lone_pdf_request : Request :=
  mkRequest [("files", upload_c); ("files", upload_notes)] [].

Definition two_pdf_request : Request :=
  mkRequest [("files", upload_c); ("files", upload_d)] [("output_name", "both.pdf")].

Definition same_name_request : Request :=
  mkRequest [("files", mkFileStorage "cv.pdf" (Pdf three_pages));
             ("files", mkFileStorage "cv.pdf" (Pdf [plain "x"]))] [].

(** Sample data: a staged document without pages. *)
Definition empty_world : World :=
  mkWorld {[ "uploads/empty.pdf" := Pdf [] ]} (fun _ => true) (fun _ => noon) 0.

(** Sample data: the fields of a cover letter whose company is blank. *)
Definition letter_without_company : list (string * string) :=
  [("name", "Ada Lovelace"); ("position", "Analyst"); ("company", "   ")].

(** Sample data: a [send_file] that serves what the world holds. *)
Definition serve (path : string) : M Download :=
  fun w => match files w !! path with
           | Some content => (Ok (Attachment path content), w)
           | None => (Raise FileNotFoundError, w)
           end.

(** Sample data: a request without a part named [file], and a watermark
    request that leaves the label and the output name to their defaults. *)
Definition no_file_request : Request := mkRequest [("files", upload_c)] [].

Definition stamp_request : Request := mkRequest [("file", upload_c)] [].
(** ** Facts about the string functions *)

Section StringFacts.

Lemma rsplit_last_None sep s :
  PyStr.rsplit_last sep s = None <-> PyStr.contains sep s = false.
Proof.
  induction s as [|c r IH]; simpl; [done|].
  destruct (PyStr.rsplit_last sep r) as [[p q]|].
  - destruct (decide (c = sep)); split; try discriminate.
    intros H. apply IH in H. discriminate.
  - destruct (decide (c = sep)); split; try discriminate.
    + intros _. by apply IH.
    + done.
Qed.

Lemma rsplit_last_app sep pre post :
  PyStr.contains sep post = false ->
  PyStr.rsplit_last sep (pre +:+ String sep post) = Some (pre, post).
Proof.
  intros Hpost. induction pre as [|c pre IH]; simpl.
  - rewrite (proj2 (rsplit_last_None sep post) Hpost).
    destruct (decide (sep = sep)); [reflexivity | done].
  - rewrite IH. reflexivity.
Qed.

Lemma rsplit_last_sound sep s pre post :
  PyStr.rsplit_last sep s = Some (pre, post) ->
  s = pre +:+ String sep post /\ PyStr.contains sep post = false.
Proof.
  revert pre. induction s as [|c r IH]; intros pre; simpl; [discriminate|].
  destruct (PyStr.rsplit_last sep r) as [[p q]|] eqn:E.
  - intros [= <- <-]. destruct (IH p eq_refl) as [-> Hq]. done.
  - destruct (decide (c = sep)) as [->|]; [|discriminate].
    intros [= <- <-]. split; [reflexivity|]. by apply rsplit_last_None.
Qed.

Lemma rsplit_last_spec sep s pre post :
  PyStr.rsplit_last sep s = Some (pre, post) <->
  s = pre +:+ String sep post /\ PyStr.contains sep post = false.
Proof.
  split; [apply rsplit_last_sound|].
  intros [-> H]. by apply rsplit_last_app.
Qed.

End StringFacts.

(** C10. A filename passes [allowed_file] exactly when it can be cut at a
    last dot into a stem and an extension that equals [pdf] up to letter
    case; so [x.PDF] and [x.exe.pdf] pass, [pdf] and [x.pdf.exe] do not. *)
Theorem allowed_file_iff_last_segment_pdf :
  (forall filename : string,
     allowed_file filename = true <->
     PyStr.contains "." filename = true /\
     exists stem ext,
       filename = stem +:+ "." +:+ ext /\
       PyStr.contains "." ext = false /\
       PyStr.ci_equal ext "pdf") /\
  allowed_file "x.PDF" = true /\
  allowed_file "x.exe.pdf" = true /\
  allowed_file "pdf" = false /\
  allowed_file "x.pdf.exe" = false.
Proof.
  split; [|repeat split; vm_compute; reflexivity].
  intros filename. unfold allowed_file, PyStr.rsplit1, PyStr.ci_equal.
  split.
  - intros H. apply andb_true_iff in H as [Hdot Hext]. split; [exact Hdot|].
    destruct (PyStr.rsplit_last "." filename) as [[pre post]|] eqn:E;
      simpl in Hext; [|discriminate].
    apply bool_decide_eq_true in Hext.
    apply rsplit_last_spec in E as [-> Hpost].
    exists pre, post. repeat split; [exact Hpost|].
    unfold ALLOWED_EXTENSIONS in Hext. apply elem_of_singleton in Hext.
    rewrite Hext. reflexivity.
  - intros [Hdot (stem & ext & -> & Hpost & Hci)].
    apply andb_true_iff. split; [exact Hdot|].
    assert (PyStr.rsplit_last "." (stem +:+ "." +:+ ext) = Some (stem, ext)) as ->
      by (apply rsplit_last_spec; split; [reflexivity | exact Hpost]).
    simpl. apply bool_decide_eq_true. unfold ALLOWED_EXTENSIONS.
    apply elem_of_singleton. rewrite Hci. reflexivity.
Qed.

(** ** Facts about computations *)

Section MonadFacts.

Context {A B S : Type}.

Lemma log_and_reraise_run (m : M A) w : log_and_reraise m w = m w.
Proof.
  unfold log_and_reraise, try_except, raise.
  destruct (m w) as [[a|e] w']; reflexivity.
Qed.

Lemma bind_run_ok (m : M A) (k : A -> M B) w a w' :
  m w = (Ok a, w') -> bind m k w = k a w'.
Proof. intros H. unfold bind. rewrite H. reflexivity. Qed.

Lemma bind_run_raise (m : M A) (k : A -> M B) w e w' :
  m w = (Raise e, w') -> bind m k w = (Raise e, w').
Proof. intros H. unfold bind. rewrite H. reflexivity. Qed.

Lemma for_each_cons (body : S -> A -> M S) x l s w :
  for_each (x :: l) body s w =
  match body s x w with
  | (Ok s', w') => for_each l body s' w'
  | (Raise e, w') => (Raise e, w')
  end.
Proof. reflexivity. Qed.

(** A loop whose body cannot raise and leaves the world alone is a fold. *)
Lemma for_each_fold (body : S -> A -> M S) (f : S -> A -> S) (l : list A) s w :
  (forall s x, x ∈ l -> body s x w = (Ok (f s x), w)) ->
  for_each l body s w = (Ok (foldl f s l), w).
Proof.
  revert s. induction l as [|x l IH]; intros s Hbody; [reflexivity|].
  rewrite for_each_cons, Hbody by left. simpl. apply IH.
  intros s' y Hy. apply Hbody. by right.
Qed.

End MonadFacts.

Lemma foldl_snoc_map {A B} (f : A -> B) (l : list A) (acc : list B) :
  foldl (fun acc x => acc ++ [f x]) acc l = acc ++ (f <$> l).
Proof.
  revert acc. induction l as [|x l IH]; intros acc; simpl.
  - by rewrite app_nil_r.
  - rewrite IH, <- app_assoc. reflexivity.
Qed.

(** ** The single-file operations, case by case *)

Lemma rotate_loop_ok angle pages acc w :
  (angle mod 90 = 0)%Z ->
  for_each pages (fun writer page =>
    rotated_page <- PyPDF2.rotate angle page ;; ret (writer ++ [rotated_page])) acc w
  = (Ok (acc ++ (rotated angle <$> pages)), w).
Proof.
  intros Hangle. rewrite <- foldl_snoc_map. apply for_each_fold.
  intros s pg _. unfold bind, PyPDF2.rotate.
  rewrite (proj2 (Z.eqb_eq _ _) Hangle). reflexivity.
Qed.

Lemma rotate_loop_raise angle pg pages acc w :
  (angle mod 90 <> 0)%Z ->
  for_each (pg :: pages) (fun writer page =>
    rotated_page <- PyPDF2.rotate angle page ;; ret (writer ++ [rotated_page])) acc w
  = (Raise ValueError, w).
Proof.
  intros Hangle. rewrite for_each_cons. unfold bind, PyPDF2.rotate.
  rewrite (proj2 (Z.eqb_neq _ _) Hangle). reflexivity.
Qed.

(** What [os.remove] does right after a successful write. *)
Lemma remove_after_write p out f w :
  is_Some (files w !! p) ->
  os.remove p (set_files w (<[out := f]> (files w)))
  = (Ok tt, set_files w (delete p (<[out := f]> (files w)))).
Proof.
  intros Hp. unfold os.remove. simpl.
  destruct (decide (out = p)) as [->|Hne].
  - rewrite lookup_insert_eq. reflexivity.
  - rewrite lookup_insert_ne by done. destruct Hp as [x ->]. reflexivity.
Qed.

Lemma write_then_remove {R} p out f (r : R) w :
  is_Some (files w !! p) ->
  (os.write_file out f ;;; os.remove p ;;; ret r) w
  = if writable w out
    then (Ok r, set_files w (delete p (<[out := f]> (files w))))
    else (Raise OSError, w).
Proof.
  intros Hp. unfold bind at 1. unfold os.write_file.
  destruct (writable w out); [|reflexivity].
  unfold bind. rewrite remove_after_write by done. reflexivity.
Qed.

Lemma rotate_pdf_run p angle out w :
  PDFProcessor.rotate_pdf p angle out w =
  match files w !! p with
  | None => (Raise FileNotFoundError, w)
  | Some (Pdf pages) =>
      if decide (pages = [] \/ (angle mod 90 = 0)%Z)
      then let output_path := os.path_join OUTPUT_FOLDER out in
           if writable w output_path
           then (Ok output_path,
                 set_files w (delete p (<[output_path := Pdf (rotated angle <$> pages)]> (files w))))
           else (Raise OSError, w)
      else (Raise ValueError, w)
  | Some _ => (Raise PdfReadError, w)
  end.
Proof.
  unfold PDFProcessor.rotate_pdf. rewrite log_and_reraise_run.
  unfold bind at 1. unfold PyPDF2.PdfReader.
  destruct (files w !! p) as [[pages|?|?]|] eqn:Hp; try reflexivity.
  destruct (decide (pages = [] \/ (angle mod 90 = 0)%Z)) as [Hok|Hbad].
  - assert (for_each pages (fun writer page =>
      rotated_page <- PyPDF2.rotate angle page ;; ret (writer ++ [rotated_page])) [] w
      = (Ok (rotated angle <$> pages), w)) as Hloop.
    { destruct Hok as [->|Hangle]; [reflexivity|]. by rewrite rotate_loop_ok. }
    rewrite (bind_run_ok _ _ _ _ _ Hloop).
    apply write_then_remove. rewrite Hp. eauto.
  - destruct pages as [|pg pages]; [tauto|].
    rewrite (bind_run_raise _ _ _ _ _ (rotate_loop_raise angle pg pages [] w ltac:(tauto))).
    reflexivity.
Qed.

Lemma add_watermark_run p text out w :
  PDFProcessor.add_watermark p text out w =
  match files w !! p with
  | None => (Raise FileNotFoundError, w)
  | Some (Pdf pages) =>
      let output_path := os.path_join OUTPUT_FOLDER out in
      if writable w output_path
      then (Ok output_path,
            set_files w (delete p (<[output_path :=
              Pdf (PyPDF2.merge_page (PyStr.upper text) <$> pages)]> (files w))))
      else (Raise OSError, w)
  | Some _ => (Raise PdfReadError, w)
  end.
Proof.
  unfold PDFProcessor.add_watermark. rewrite log_and_reraise_run.
  unfold bind at 1. unfold PyPDF2.PdfReader.
  destruct (files w !! p) as [[pages|?|?]|] eqn:Hp; try reflexivity.
  erewrite bind_run_ok;
    [|apply (for_each_fold _ (fun writer page =>
        writer ++ [PyPDF2.merge_page (PyStr.upper text) page])); reflexivity].
  rewrite foldl_snoc_map. simpl.
  apply write_then_remove. rewrite Hp. eauto.
Qed.

Lemma path_join_output name :
  os.path_join OUTPUT_FOLDER name =
  if PyStr.startswith "/" name then name else "outputs/" +:+ name.
Proof. unfold os.path_join. destruct (PyStr.startswith "/" name); reflexivity. Qed.

Lemma staged_not_output p name : staged p -> p <> os.path_join OUTPUT_FOLDER name.
Proof.
  intros [n ->]. rewrite path_join_output.
  destruct name as [|c name]; simpl; [discriminate|].
  case_bool_decide; [subst c|]; discriminate.
Qed.

Lemma saved_staged p : saved p -> staged p.
Proof. intros (name & -> & _). by exists name. Qed.

Lemma Forall_saved_staged paths : Forall saved paths -> Forall staged paths.
Proof. intros H. eapply Forall_impl; [exact H | apply saved_staged]. Qed.

Lemma extract_loop pages w :
  for_each (imap (fun i page => (Z.of_nat i + 1, page)%Z) pages)
    (fun text_content '(page_num, page) =>
       ret (text_content ++ [PDFProcessor.page_block page_num page])) [] w
  = (Ok (imap (fun i page => PDFProcessor.page_block (Z.of_nat i + 1) page) pages), w).
Proof.
  erewrite (for_each_fold _ (fun text_content np =>
              text_content ++ [PDFProcessor.page_block (fst np) (snd np)])).
  - rewrite foldl_snoc_map. simpl. f_equal. f_equal.
    rewrite fmap_imap. reflexivity.
  - intros s [n pg] _. reflexivity.
Qed.

Lemma extract_text_run p w :
  PDFProcessor.extract_text p w =
  match files w !! p with
  | None => (Raise FileNotFoundError, w)
  | Some (Pdf pages) =>
      let out := extract_output_path w in
      if writable w out
      then (Ok (out, preview_of (full_text pages)),
            set_files (tick w) (delete p (<[out := Text (full_text pages)]> (files w))))
      else (Raise OSError, tick w)
  | Some _ => (Raise PdfReadError, w)
  end.
Proof.
  unfold PDFProcessor.extract_text. rewrite log_and_reraise_run.
  unfold bind at 1. unfold PyPDF2.PdfReader.
  destruct (files w !! p) as [[pages|?|?]|] eqn:Hp; try reflexivity.
  rewrite (bind_run_ok _ _ _ _ _ (extract_loop pages w)).
  unfold bind at 1. unfold generate_filename, bind at 1, datetime_now, ret at 1.
  fold (tick w). fold (full_text pages).
  assert (is_Some (files (tick w) !! p)) as Hsome by (simpl; rewrite Hp; eauto).
  pose proof (write_then_remove p (extract_output_path w) (Text (full_text pages))
                (extract_output_path w, preview_of (full_text pages)) (tick w) Hsome) as H.
  exact H.
Qed.

(** ** Text extraction *)

(** C1, as the code has it. For a staged PDF, [extract_text] writes the full
    text to its artifact and returns a preview: the first 1000 characters
    followed by three dots when the text is longer than 1000 characters,
    the full text otherwise. *)
Theorem extract_text_preview_ellipsis (w : World) (p : string) (pages : list Page) :
  files w !! p = Some (Pdf pages) ->
  staged p ->
  writable w (extract_output_path w) = true ->
  exists preview w',
    PDFProcessor.extract_text p w = (Ok (extract_output_path w, preview), w') /\
    files w' !! extract_output_path w = Some (Text (full_text pages)) /\
    ((1000 < String.length (full_text pages))%nat ->
       preview = PyStr.take 1000 (full_text pages) +:+ "...") /\
    ((String.length (full_text pages) <= 1000)%nat ->
       preview = full_text pages).
Proof.
  intros Hp Hst Hwr. rewrite extract_text_run, Hp. simpl. rewrite Hwr.
  eexists _, _. split; [reflexivity|]. split.
  - simpl. rewrite lookup_delete_ne, lookup_insert_eq; [done|].
    by apply staged_not_output.
  - unfold preview_of. split; intros Hlen.
    + by rewrite (proj2 (Nat.ltb_lt _ _) Hlen).
    + rewrite (proj2 (Nat.ltb_ge _ _) Hlen). reflexivity.
Qed.

Lemma extract_text_preview_ellipsis_witness :
  exists preview w',
    PDFProcessor.extract_text "uploads/long.pdf" long_world
      = (Ok (extract_output_path long_world, preview), w') /\
    files w' !! extract_output_path long_world = Some (Text (full_text long_pages)) /\
    ((1000 < String.length (full_text long_pages))%nat ->
       preview = PyStr.take 1000 (full_text long_pages) +:+ "...") /\
    ((String.length (full_text long_pages) <= 1000)%nat ->
       preview = full_text long_pages).
Proof.
  apply (extract_text_preview_ellipsis long_world "uploads/long.pdf" long_pages).
  - reflexivity.
  - exists "long.pdf". reflexivity.
  - reflexivity.
Defined.

(** C1, as stated, fails: on a document whose text has 1016 characters the
    preview is not the first 1000 characters, it carries three more. *)
Lemma extract_preview_is_not_the_bare_prefix :
  (1000 < String.length (full_text long_pages))%nat /\
  fst (PDFProcessor.extract_text "uploads/long.pdf" long_world)
    = Ok ("outputs/extracted_text_20240307_120000.txt",
          PyStr.take 1000 (full_text long_pages) +:+ "...") /\
  PyStr.take 1000 (full_text long_pages) +:+ "..."
    <> PyStr.take 1000 (full_text long_pages).
Proof.
  split; [|split].
  - apply Nat.ltb_lt. vm_compute. reflexivity.
  - vm_compute. reflexivity.
  - intros H. apply (f_equal String.length) in H. vm_compute in H. discriminate.
Qed.

(** ** Rotation *)

Lemma rotated_twice a b (pages : list Page) :
  rotated b <$> (rotated a <$> pages) = rotated (a + b) <$> pages.
Proof.
  rewrite <- list_fmap_compose. apply list_fmap_ext. intros _ [t r o] _.
  unfold rotated. simpl. f_equal. lia.
Qed.

Lemma rotate_pdf_staged_ok w p pages angle out :
  files w !! p = Some (Pdf pages) ->
  staged p ->
  (angle mod 90 = 0)%Z ->
  writable w (os.path_join OUTPUT_FOLDER out) = true ->
  exists w',
    PDFProcessor.rotate_pdf p angle out w = (Ok (os.path_join OUTPUT_FOLDER out), w') /\
    files w' !! os.path_join OUTPUT_FOLDER out = Some (Pdf (rotated angle <$> pages)) /\
    files w' !! p = None.
Proof.
  intros Hp Hst Hangle Hwr. rewrite rotate_pdf_run, Hp.
  rewrite decide_True by (by right). simpl. rewrite Hwr.
  eexists. split; [reflexivity|]. simpl. split.
  - rewrite lookup_delete_ne, lookup_insert_eq; [done|]. by apply staged_not_output.
  - apply lookup_delete_eq.
Qed.



(** ** Merging *)

Lemma set_files_id w : set_files w (files w) = w.
Proof. by destruct w. Qed.

Lemma for_each_app {A S} (body : S -> A -> M S) l1 l2 s w :
  for_each (l1 ++ l2) body s w =
  (s' <- for_each l1 body s ;; for_each l2 body s') w.
Proof.
  revert s w. induction l1 as [|x l1 IH]; intros s w.
  - reflexivity.
  - simpl app. rewrite for_each_cons. unfold bind at 1.
    rewrite for_each_cons. destruct (body s x w) as [[s'|e] w']; [apply IH | reflexivity].
Qed.

Lemma merge_read_run merger p w :
  merge_read merger p w =
  match files w !! p with
  | None => (Ok merger, w)
  | Some (Pdf pages) => (Ok (merger ++ pages), w)
  | Some _ => (Raise PdfReadError, w)
  end.
Proof.
  unfold merge_read, bind, os.path_exists, PyPDF2.PdfReader.
  destruct (files w !! p) as [[?|?|?]|] eqn:Hp; simpl; rewrite ?Hp; reflexivity.
Qed.

Lemma merge_read_loop_world paths merger w :
  snd (for_each paths merge_read merger w) = w.
Proof.
  revert merger. induction paths as [|p paths IH]; intros merger; [reflexivity|].
  rewrite for_each_cons, merge_read_run.
  destruct (files w !! p) as [[?|?|?]|]; try reflexivity; apply IH.
Qed.

Lemma merge_read_loop_ok paths merger w :
  Forall (readable w) paths ->
  for_each paths merge_read merger w
  = (Ok (merger ++ concat (pages_at w <$> paths)), w).
Proof.
  intros Hall. revert merger. induction Hall as [|p paths Hp _ IH]; intros merger.
  - simpl. by rewrite app_nil_r.
  - rewrite for_each_cons, merge_read_run. unfold readable in Hp.
    simpl. unfold pages_at at 1.
    destruct (files w !! p) as [[pages|?|?]|]; try done.
    rewrite IH, <- app_assoc. reflexivity.
Qed.

Lemma merge_cleanup_loop paths w :
  for_each paths merge_cleanup tt w
  = (Ok tt, set_files w (remove_all paths (files w))).
Proof.
  revert w. induction paths as [|p paths IH]; intros w.
  - simpl. by rewrite set_files_id.
  - rewrite for_each_cons. unfold merge_cleanup at 1, bind, os.path_exists, os.remove.
    destruct (files w !! p) as [f|] eqn:Hp; simpl; rewrite ?Hp.
    + rewrite IH. reflexivity.
    + rewrite IH. unfold remove_all. simpl. by rewrite (delete_id _ _ Hp).
Qed.

Lemma merge_pdfs_run paths out w :
  PDFProcessor.merge_pdfs paths out w =
  match fst (for_each paths merge_read [] w) with
  | Ok merger =>
      let output_path := os.path_join OUTPUT_FOLDER out in
      if writable w output_path
      then (Ok output_path,
            set_files w (remove_all paths (<[output_path := Pdf merger]> (files w))))
      else (Raise OSError, w)
  | Raise e => (Raise e, w)
  end.
Proof.
  unfold PDFProcessor.merge_pdfs. rewrite log_and_reraise_run.
  fold merge_read. fold merge_cleanup. unfold bind at 1.
  pose proof (merge_read_loop_world paths [] w) as Hw.
  destruct (for_each paths merge_read [] w) as [[merger|e] w1]; simpl in Hw; subst w1;
    [|reflexivity].
  simpl. unfold bind at 1, os.write_file, PDFProcessor.output_folder.
  destruct (writable w (os.path_join OUTPUT_FOLDER out)); [|reflexivity].
  unfold bind. rewrite merge_cleanup_loop. reflexivity.
Qed.

Lemma lookup_remove_all paths (fs : gmap string File) q :
  remove_all paths fs !! q = if decide (q ∈ paths) then None else fs !! q.
Proof.
  unfold remove_all. revert fs. induction paths as [|p paths IH]; intros fs.
  - destruct (decide (q ∈ [])) as [H|]; [by apply not_elem_of_nil in H | reflexivity].
  - change (foldl (fun fs p => delete p fs) (delete p fs) paths !! q
            = if decide (q ∈ p :: paths) then None else fs !! q).
    rewrite IH. destruct (decide (q = p)) as [->|Hne].
    + rewrite lookup_delete_eq.
      destruct (decide (p ∈ paths)); destruct (decide (p ∈ p :: paths)) as [|Hn];
        try reflexivity; exfalso; apply Hn; left.
    + rewrite lookup_delete_ne by done.
      destruct (decide (q ∈ paths)) as [Hin|Hnin];
        destruct (decide (q ∈ p :: paths)) as [Hin'|Hnin']; try reflexivity.
      * exfalso. apply Hnin'. by right.
      * exfalso. apply elem_of_cons in Hin' as [?|?]; done.
Qed.

Lemma remove_all_absent before p after (fs : gmap string File) :
  fs !! p = None ->
  remove_all (before ++ p :: after) fs = remove_all (before ++ after) fs.
Proof.
  intros Hp. unfold remove_all. rewrite !foldl_app. simpl. f_equal.
  apply delete_id. fold (remove_all before fs). rewrite lookup_remove_all.
  by destruct (decide (p ∈ before)).
Qed.

Lemma Forall2_staged_valid w paths docs :
  Forall2 (fun p pages => staged p /\ files w !! p = Some (Pdf pages)) paths docs ->
  Forall (readable w) paths /\ pages_at w <$> paths = docs /\ Forall staged paths.
Proof.
  induction 1 as [|p pages paths docs [Hst Hp] _ (IH1 & IH2 & IH3)].
  - repeat split; constructor.
  - repeat split.
    + constructor; [|done]. unfold readable. by rewrite Hp.
    + simpl. unfold pages_at at 1. rewrite Hp. by f_equal.
    + by constructor.
Qed.




(** ** Splitting *)

Lemma split_pdf_unfold p k :
  PDFProcessor.split_pdf p k =
  log_and_reraise (
    reader_pages <- PyPDF2.PdfReader p ;;
    starts <- py_range 0 (Z.of_nat (length reader_pages)) k ;;
    output_files <- for_each starts (split_body reader_pages k) [] ;;
    os.remove p ;;;
    ret output_files).
Proof. reflexivity. Qed.

Section Ranges.

Lemma ceil_div_0 k : (0 < k)%nat -> ceil_div 0 k = 0%nat.
Proof. intros Hk. unfold ceil_div. apply Nat.div_small. lia. Qed.

Lemma ceil_div_pos a k :
  (0 < k)%nat -> (0 < a)%nat -> ceil_div a k = S ((a - 1) / k).
Proof.
  intros Hk Ha. unfold ceil_div.
  replace (a + k - 1)%nat with ((a - 1) + 1 * k)%nat by lia.
  rewrite Nat.div_add by lia. lia.
Qed.

Lemma ceil_div_step a k :
  (0 < k)%nat -> (0 < a)%nat -> ceil_div a k = S (ceil_div (a - k) k).
Proof.
  intros Hk Ha. rewrite ceil_div_pos by done. f_equal.
  destruct (decide (a <= k)%nat) as [Hle|Hgt].
  - replace (a - k)%nat with 0%nat by lia. rewrite ceil_div_0 by done.
    apply Nat.div_small. lia.
  - rewrite (ceil_div_pos (a - k)) by lia.
    replace (a - 1)%nat with ((a - k - 1) + 1 * k)%nat by lia.
    rewrite Nat.div_add by lia. lia.
Qed.

(** [ceil_div n k] is the least number of chunks that covers [n] pages. *)
Lemma ceil_div_bounds n k :
  (0 < k)%nat -> (0 < n)%nat ->
  (n <= ceil_div n k * k)%nat /\ ((ceil_div n k - 1) * k < n)%nat.
Proof.
  intros Hk Hn. rewrite ceil_div_pos by done.
  pose proof (Nat.div_mod_eq (n - 1) k) as Hdm.
  pose proof (Nat.mod_upper_bound (n - 1) k ltac:(lia)) as Hr.
  split; simpl; nia.
Qed.

Lemma range_go_up (k : nat) :
  (0 < k)%nat ->
  forall fuel s e,
    (e - s <= fuel)%nat ->
    range_go fuel (Z.of_nat s) (Z.of_nat e) (Z.of_nat k)
    = (fun i => Z.of_nat (s + i * k)) <$> seq 0 (ceil_div (e - s) k).
Proof.
  intros Hk. induction fuel as [|fuel IH]; intros s e Hfuel.
  - replace (e - s)%nat with 0%nat by lia. by rewrite ceil_div_0.
  - simpl. rewrite (proj2 (Z.ltb_lt 0 (Z.of_nat k))) by lia.
    destruct (Z.ltb_spec (Z.of_nat s) (Z.of_nat e)) as [Hlt|Hge].
    + rewrite (ceil_div_step (e - s) k) by lia.
      simpl. rewrite Nat.add_0_r. f_equal.
      replace (Z.of_nat s + Z.of_nat k)%Z with (Z.of_nat (s + k)) by lia.
      rewrite IH by lia. replace (e - (s + k))%nat with (e - s - k)%nat by lia.
      rewrite <- fmap_S_seq, <- list_fmap_compose.
      apply list_fmap_ext. intros _ i _. simpl. f_equal. lia.
    + replace (e - s)%nat with 0%nat by lia. by rewrite ceil_div_0.
Qed.

Lemma ceil_div_1 a : ceil_div a 1 = a.
Proof. unfold ceil_div. rewrite Nat.div_1_r. lia. Qed.

Lemma py_range_unit s e w :
  (s <= e)%nat ->
  py_range (Z.of_nat s) (Z.of_nat e) 1 w = (Ok (Z.of_nat <$> seq s (e - s)), w).
Proof.
  intros Hse. unfold py_range. simpl. unfold ret. f_equal. f_equal.
  rewrite (range_go_up 1 ltac:(lia)) by lia. rewrite ceil_div_1.
  replace (seq s (e - s)) with (seq (s + 0) (e - s)) by (f_equal; lia).
  rewrite <- (fmap_add_seq s 0), <- list_fmap_compose.
  apply list_fmap_ext. intros _ i _. simpl. f_equal. lia.
Qed.

Lemma py_range_starts n (k : nat) w :
  (0 < k)%nat ->
  py_range 0 (Z.of_nat n) (Z.of_nat k) w
  = (Ok ((fun i => Z.of_nat (i * k)) <$> seq 0 (ceil_div n k)), w).
Proof.
  intros Hk. unfold py_range.
  rewrite (proj2 (Z.eqb_neq (Z.of_nat k) 0)) by lia. unfold ret. f_equal. f_equal.
  rewrite (range_go_up k Hk _ 0 n) by lia. rewrite Nat.sub_0_r. reflexivity.
Qed.

Lemma py_range_down n k w :
  (k < 0)%Z -> py_range 0 (Z.of_nat n) k w = (Ok [], w).
Proof.
  intros Hk. unfold py_range. rewrite (proj2 (Z.eqb_neq k 0)) by lia.
  unfold ret. f_equal. f_equal.
  destruct (Z.to_nat (Z.abs (Z.of_nat n - 0))) as [|fuel]; [reflexivity|].
  simpl. rewrite (proj2 (Z.ltb_ge 0 k)) by lia.
  rewrite (proj2 (Z.ltb_ge (Z.of_nat n) 0)) by lia. reflexivity.
Qed.

End Ranges.

Lemma index_run (pages : list Page) (i : nat) pg w :
  pages !! i = Some pg -> PyPDF2.index pages (Z.of_nat i) w = (Ok pg, w).
Proof.
  intros Hi. unfold PyPDF2.index.
  rewrite (proj2 (Z.ltb_ge (Z.of_nat i) 0)) by lia.
  rewrite (proj2 (Z.ltb_ge (Z.of_nat i) 0)) by lia.
  rewrite Nat2Z.id, Hi. reflexivity.
Qed.

Lemma copy_pages_loop (pages : list Page) m s acc w :
  (s + m <= length pages)%nat ->
  for_each (Z.of_nat <$> seq s m) (fun writer page_num =>
      page <- PyPDF2.index pages page_num ;; ret (writer ++ [page])) acc w
  = (Ok (acc ++ take m (drop s pages)), w).
Proof.
  revert s acc. induction m as [|m IH]; intros s acc Hlen.
  - simpl. by rewrite app_nil_r.
  - simpl seq. rewrite fmap_cons, for_each_cons.
    destruct (lookup_lt_is_Some_2 pages s ltac:(lia)) as [pg Hpg].
    unfold bind at 1. rewrite (index_run pages s pg w Hpg). unfold ret at 1.
    rewrite IH by lia. rewrite (drop_S pages pg s Hpg). simpl.
    rewrite <- app_assoc. reflexivity.
Qed.

Lemma take_chunk (pages : list Page) k s :
  take (min (s + k) (length pages) - s) (drop s pages) = take k (drop s pages).
Proof.
  destruct (decide (s + k <= length pages)%nat) as [Hle|Hgt].
  - f_equal. lia.
  - rewrite !take_ge; [reflexivity| |]; rewrite length_drop; lia.
Qed.

(** One round of the loop of [split_pdf]: the [i]-th chunk. *)
Lemma split_body_run (pages : list Page) (k i : nat) outs (w v : World) :
  (0 < k)%nat ->
  (i * k < length pages)%nat ->
  writable v = writable w -> clock v = clock w -> ticks v = (ticks w + i)%nat ->
  split_body pages (Z.of_nat k) outs (Z.of_nat (i * k)) v =
  let path := chunk_path w (length pages) k i in
  if writable w path
  then (Ok (outs ++ [path]), set_files (tick v) (<[path := Pdf (chunk pages k i)]> (files v)))
  else (Raise OSError, tick v).
Proof.
  intros Hk Hi Hwr Hclk Htk. unfold split_body.
  assert (Z.min (Z.of_nat (i * k) + Z.of_nat k) (Z.of_nat (length pages))
          = Z.of_nat (min (i * k + k) (length pages))) as Hend by lia.
  unfold bind at 1. rewrite Hend, py_range_unit by lia.
  unfold bind at 1. rewrite copy_pages_loop by lia.
  simpl app. rewrite take_chunk. fold (chunk pages k i).
  unfold bind at 1. unfold generate_filename, bind at 1, datetime_now, ret at 1.
  fold (tick v). rewrite <- Hend. rewrite Hclk, Htk.
  fold (chunk_base (length pages) k i).
  fold (stamped (chunk_base (length pages) k i) (clock w (ticks w + i)) ".pdf").
  unfold PDFProcessor.output_folder. fold (chunk_path w (length pages) k i).
  unfold bind, os.write_file. simpl writable. rewrite Hwr.
  destruct (writable w (chunk_path w (length pages) k i)); reflexivity.
Qed.

(** *** The names of the chunks are pairwise different *)

Section ChunkNames.

Lemma append_assoc (a b c : string) : (a +:+ b) +:+ c = a +:+ (b +:+ c).
Proof.
  induction a as [|x a IH]; [reflexivity|].
  change (String x ((a +:+ b) +:+ c) = String x (a +:+ (b +:+ c))).
  f_equal. exact IH.
Qed.

Lemma uint_has_no_dash d : PyStr.contains "-" (NilEmpty.string_of_uint d) = false.
Proof. induction d; simpl; try reflexivity; exact IHd. Qed.

Lemma of_Z_has_no_dash z : (0 <= z)%Z -> PyStr.contains "-" (PyStr.of_Z z) = false.
Proof.
  intros Hz. unfold PyStr.of_Z. destruct z as [|q|q]; [reflexivity| |lia].
  simpl. apply uint_has_no_dash.
Qed.

Lemma of_Z_inj a b : PyStr.of_Z a = PyStr.of_Z b -> a = b.
Proof.
  unfold PyStr.of_Z. intros H. apply DecimalZ.to_int_inj.
  apply (f_equal NilEmpty.int_of_string) in H.
  rewrite !NilEmpty.isi in H. congruence.
Qed.

(** Two texts without [sep] that are followed by [sep] in the same string
    are the same text. *)
Lemma cut_at_first sep a b x y :
  PyStr.contains sep a = false -> PyStr.contains sep b = false ->
  a +:+ String sep x = b +:+ String sep y -> a = b.
Proof.
  revert b. induction a as [|c a IH]; intros [|d b] Ha Hb H; simpl in *.
  - reflexivity.
  - injection H as <- _. destruct (decide (sep = sep)); [discriminate | done].
  - injection H as -> _. destruct (decide (sep = sep)); [discriminate | done].
  - injection H as <- H.
    destruct (decide (c = sep)); [discriminate|]. f_equal. by apply IH.
Qed.

Lemma chunk_path_eq w n k i :
  chunk_path w n k i =
  "outputs/split_pages_" +:+ PyStr.of_Z (Z.of_nat (i * k) + 1) +:+ "-"
  +:+ PyStr.of_Z (Z.min (Z.of_nat (i * k) + Z.of_nat k) (Z.of_nat n))
  +:+ "_" +:+ strftime_stamp (clock w (ticks w + i)) +:+ ".pdf".
Proof.
  unfold chunk_path, stamped, chunk_base. rewrite path_join_output. simpl.
  rewrite !append_assoc. reflexivity.
Qed.

Lemma chunk_path_inj w n k i j :
  (0 < k)%nat -> chunk_path w n k i = chunk_path w n k j -> i = j.
Proof.
  intros Hk. rewrite !chunk_path_eq. intros H.
  apply (String.app_inj "outputs/split_pages_") in H.
  apply cut_at_first in H; try (apply of_Z_has_no_dash; lia).
  apply of_Z_inj in H. nia.
Qed.

Lemma chunk_path_not_staged w n k i p : staged p -> chunk_path w n k i <> p.
Proof.
  intros Hst Heq. unfold chunk_path in Heq. symmetry in Heq.
  by apply staged_not_output in Heq.
Qed.

End ChunkNames.

Lemma lookup_write_chunks_other w pages k indices (fs : gmap string File) q :
  (forall i, i ∈ indices -> chunk_path w (length pages) k i <> q) ->
  write_chunks w pages k indices fs !! q = fs !! q.
Proof.
  unfold write_chunks. revert fs.
  induction indices as [|i indices IH]; intros fs Hq; [reflexivity|].
  simpl. rewrite IH by (intros j Hj; apply Hq; by right).
  apply lookup_insert_ne, Hq. left.
Qed.

Lemma lookup_write_chunks w pages k indices (fs : gmap string File) i :
  (0 < k)%nat -> i ∈ indices ->
  write_chunks w pages k indices fs !! chunk_path w (length pages) k i
  = Some (Pdf (chunk pages k i)).
Proof.
  intros Hk. unfold write_chunks. revert fs.
  induction indices as [|j indices IH]; intros fs Hi; [by apply not_elem_of_nil in Hi|].
  simpl. destruct (decide (i ∈ indices)) as [Hin|Hnin]; [by apply IH|].
  apply elem_of_cons in Hi as [->|?]; [|done].
  fold (write_chunks w pages k indices
          (<[chunk_path w (length pages) k j := Pdf (chunk pages k j)]> fs)).
  rewrite lookup_write_chunks_other, lookup_insert_eq; [done|].
  intros i Hi Heq. apply chunk_path_inj in Heq; [|done]. by subst.
Qed.

Lemma write_chunks_keeps w pages k indices (fs : gmap string File) q :
  is_Some (fs !! q) -> is_Some (write_chunks w pages k indices fs !! q).
Proof.
  unfold write_chunks. revert fs.
  induction indices as [|i indices IH]; intros fs Hq; [done|].
  simpl. apply IH. rewrite lookup_insert_is_Some.
  destruct (decide (chunk_path w (length pages) k i = q)); [by left | by right].
Qed.

(** *** The loop *)

Lemma chunk_index_in_range n k i :
  (0 < k)%nat -> (i < ceil_div n k)%nat -> (i * k < n)%nat.
Proof.
  intros Hk Hi. destruct n as [|n]; [rewrite ceil_div_0 in Hi; lia|].
  destruct (ceil_div_bounds (S n) k Hk ltac:(lia)) as [_ Hlt]. nia.
Qed.

(** The outcome of the loop that writes the chunks [i0], ..., [i0 + m - 1]:
    it writes [j] of them and then either is done or hits a path it cannot
    write. *)
Lemma split_loop_outcome (pages : list Page) (k : nat) (w : World) :
  (0 < k)%nat ->
  forall m i0 outs v,
    (i0 + m <= ceil_div (length pages) k)%nat ->
    writable v = writable w -> clock v = clock w -> ticks v = (ticks w + i0)%nat ->
    exists j r v',
      for_each ((fun i => Z.of_nat (i * k)) <$> seq i0 m)
               (split_body pages (Z.of_nat k)) outs v = (r, v') /\
      (j <= m)%nat /\
      files v' = write_chunks w pages k (seq i0 j) (files v) /\
      ((r = Ok (outs ++ (chunk_path w (length pages) k <$> seq i0 m)) /\ j = m) \/
       (r = Raise OSError /\ (j < m)%nat /\
        writable w (chunk_path w (length pages) k (i0 + j)) = false)).
Proof.
  intros Hk. induction m as [|m IH]; intros i0 outs v Hm Hwr Hclk Htk.
  - exists 0%nat, (Ok outs), v. simpl. rewrite app_nil_r.
    split; [reflexivity|]. split; [lia|]. split; [reflexivity|]. by left.
  - simpl seq. rewrite fmap_cons, for_each_cons.
    rewrite (split_body_run pages k i0 outs w v Hk
               (chunk_index_in_range (length pages) k i0 Hk ltac:(lia)) Hwr Hclk Htk).
    simpl. destruct (writable w (chunk_path w (length pages) k i0)) eqn:Hw0.
    + destruct (IH (S i0) (outs ++ [chunk_path w (length pages) k i0])
                  (set_files (tick v)
                     (<[chunk_path w (length pages) k i0 := Pdf (chunk pages k i0)]> (files v)))
                  ltac:(lia) Hwr Hclk ltac:(simpl; lia))
        as (j & r & v' & Hrun & Hj & Hfiles & Hcases).
      exists (S j), r, v'. split; [exact Hrun|]. split; [lia|]. split; [exact Hfiles|].
      destruct Hcases as [[-> ->]|(-> & Hlt & Hbad)].
      * left. split; [|reflexivity]. by rewrite <- app_assoc.
      * right. split; [reflexivity|]. split; [lia|].
        by replace (i0 + S j)%nat with (S i0 + j)%nat by lia.
    + exists 0%nat, (Raise OSError), (tick v). split; [reflexivity|].
      split; [lia|]. split; [reflexivity|]. right.
      split; [reflexivity|]. split; [lia|]. by rewrite Nat.add_0_r.
Qed.

(** *** The whole operation *)

(** [split_pdf] on a staged PDF with a positive page count per file. *)
Lemma split_pdf_outcome (w : World) (p : string) (pages : list Page) (k : nat) :
  files w !! p = Some (Pdf pages) ->
  (0 < k)%nat ->
  exists j r w',
    PDFProcessor.split_pdf p (Z.of_nat k) w = (r, w') /\
    ((r = Ok (chunk_path w (length pages) k <$> seq 0 (ceil_div (length pages) k)) /\
      j = ceil_div (length pages) k /\
      files w' = delete p (write_chunks w pages k (seq 0 j) (files w))) \/
     (r = Raise OSError /\ (j < ceil_div (length pages) k)%nat /\
      writable w (chunk_path w (length pages) k j) = false /\
      files w' = write_chunks w pages k (seq 0 j) (files w))).
Proof.
  intros Hp Hk. rewrite split_pdf_unfold, log_and_reraise_run.
  unfold bind at 1. unfold PyPDF2.PdfReader. rewrite Hp.
  unfold bind at 1. rewrite py_range_starts by done.
  destruct (split_loop_outcome pages k w Hk (ceil_div (length pages) k) 0 [] w
              ltac:(lia) eq_refl eq_refl ltac:(lia))
    as (j & r & v' & Hrun & Hj & Hfiles & Hcases).
  unfold bind at 1. rewrite Hrun.
  destruct Hcases as [[-> ->]|(-> & Hlt & Hbad)].
  - exists (ceil_div (length pages) k). eexists _, _. split; [|left].
    + unfold bind, os.remove.
      destruct (write_chunks_keeps w pages k (seq 0 (ceil_div (length pages) k))
                  (files w) p ltac:(rewrite Hp; eauto)) as [f Hf].
      rewrite <- Hfiles in Hf. rewrite Hf. reflexivity.
    + simpl. rewrite Hfiles. done.
  - exists j, (Raise OSError), v'. split; [reflexivity|]. right. done.
Qed.

Lemma split_pdf_zero w p pages :
  files w !! p = Some (Pdf pages) ->
  PDFProcessor.split_pdf p 0 w = (Raise ValueError, w).
Proof.
  intros Hp. rewrite split_pdf_unfold, log_and_reraise_run.
  unfold bind at 1. unfold PyPDF2.PdfReader. rewrite Hp. reflexivity.
Qed.

Lemma split_pdf_negative w p pages k :
  files w !! p = Some (Pdf pages) ->
  (k < 0)%Z ->
  PDFProcessor.split_pdf p k w = (Ok [], set_files w (delete p (files w))).
Proof.
  intros Hp Hk. rewrite split_pdf_unfold, log_and_reraise_run.
  unfold bind at 1. unfold PyPDF2.PdfReader. rewrite Hp.
  unfold bind at 1. rewrite py_range_down by done.
  unfold bind, os.remove. simpl. rewrite Hp. reflexivity.
Qed.

Lemma length_chunk (pages : list Page) k i :
  length (chunk pages k i) = min k (length pages - i * k).
Proof. unfold chunk. by rewrite length_take, length_drop. Qed.

Lemma concat_chunks (pages : list Page) k m :
  concat (chunk pages k <$> seq 0 m) = take (m * k) pages.
Proof.
  induction m as [|m IH]; [reflexivity|].
  rewrite seq_S, fmap_app, concat_app, IH. simpl. rewrite app_nil_r.
  unfold chunk. rewrite take_take_drop. f_equal. lia.
Qed.

Lemma concat_all_chunks (pages : list Page) k :
  (0 < k)%nat ->
  concat (chunk pages k <$> seq 0 (ceil_div (length pages) k)) = pages.
Proof.
  intros Hk. rewrite concat_chunks. apply take_ge.
  destruct pages as [|pg pages]; [simpl; lia|].
  destruct (ceil_div_bounds (length (pg :: pages)) k Hk ltac:(simpl; lia)). lia.
Qed.

(** C5. Splitting a staged PDF of [n >= 1] pages with [k >= 1] pages per
    file writes [ceil(n/k)] artifacts.  The [i]-th one (from 0) holds the
    [k] consecutive pages that start at page [i * k], fewer only where the
    document ends, which happens in the last chunk at most; the chunks in
    order make up the document; and its name spells the 1-based inclusive
    page range of the chunk. *)
Theorem split_writes_contiguous_chunks
    (w : World) (p : string) (pages : list Page) (k : nat) :
  files w !! p = Some (Pdf pages) ->
  staged p ->
  (1 <= length pages)%nat ->
  (1 <= k)%nat ->
  (forall i, (i < ceil_div (length pages) k)%nat ->
             writable w (chunk_path w (length pages) k i) = true) ->
  let n := length pages in
  let c := ceil_div n k in
  exists outs w',
    PDFProcessor.split_pdf p (Z.of_nat k) w = (Ok outs, w') /\
    length outs = c /\
    ((n <= c * k)%nat /\ ((c - 1) * k < n)%nat) /\
    concat (chunk pages k <$> seq 0 c) = pages /\
    forall i, (i < c)%nat ->
      outs !! i = Some (chunk_path w n k i) /\
      files w' !! chunk_path w n k i = Some (Pdf (take k (drop (i * k) pages))) /\
      (1 <= length (take k (drop (i * k) pages)) <= k)%nat /\
      ((i + 1 < c)%nat -> length (take k (drop (i * k) pages)) = k) /\
      chunk_path w n k i =
        "outputs/split_pages_" +:+ PyStr.of_Z (Z.of_nat (i * k) + 1) +:+ "-"
        +:+ PyStr.of_Z (Z.of_nat (i * k + length (take k (drop (i * k) pages))))
        +:+ "_" +:+ strftime_stamp (clock w (ticks w + i)) +:+ ".pdf".
Proof.
  intros Hp Hst Hn Hk Hwr n c. subst n c.
  destruct (split_pdf_outcome w p pages k Hp ltac:(lia))
    as (j & r & w' & Hrun & [(-> & -> & Hfiles)|(-> & Hlt & Hbad & _)]);
    [|rewrite Hwr in Hbad by done; discriminate].
  set (n := length pages) in *. set (c := ceil_div n k) in *.
  destruct (ceil_div_bounds n k ltac:(lia) ltac:(lia)) as [Hup Hlow].
  exists (chunk_path w n k <$> seq 0 c), w'.
  split; [exact Hrun|]. split; [by rewrite length_fmap, length_seq|].
  split; [by split|]. split; [apply concat_all_chunks; lia|].
  intros i Hi. fold (chunk pages k i).
  assert (i * k < n)%nat as Hik by (apply chunk_index_in_range; [lia | done]).
  pose proof (length_chunk pages k i) as Hlen. fold n in Hlen.
  split; [|split; [|split; [|split]]].
  - rewrite list_lookup_fmap, lookup_seq_lt by done. reflexivity.
  - rewrite Hfiles, lookup_delete_ne
      by (intros Heq; symmetry in Heq; by apply chunk_path_not_staged in Heq).
    apply lookup_write_chunks; [lia|]. apply elem_of_seq. lia.
  - lia.
  - intros Hnext. assert ((i + 1) * k <= (c - 1) * k)%nat by nia. lia.
  - rewrite chunk_path_eq. do 5 f_equal. lia.
Qed.

Lemma split_writes_contiguous_chunks_witness :
  exists outs w',
    PDFProcessor.split_pdf "uploads/a.pdf" 2 small_world = (Ok outs, w') /\
    length outs = 2%nat /\
    outs !! 1%nat = Some "outputs/split_pages_3-3_20240307_120000.pdf" /\
    files w' !! "outputs/split_pages_3-3_20240307_120000.pdf" = Some (Pdf [plain "three"]).
Proof.
  destruct (split_writes_contiguous_chunks small_world "uploads/a.pdf" three_pages 2)
    as (outs & w' & Hrun & Hlen & _ & _ & Hchunks).
  - reflexivity.
  - exists "a.pdf". reflexivity.
  - simpl. lia.
  - lia.
  - reflexivity.
  - exists outs, w'. split; [exact Hrun|]. split; [exact Hlen|].
    destruct (Hchunks 1%nat) as (Hout & Hfile & _).
    + vm_compute. lia.
    + split; [exact Hout | exact Hfile].
Defined.

(** ** Splitting, then merging the parts *)




(** ** What becomes of the staged input *)

Lemma split_pdf_not_pdf w p k :
  match files w !! p with Some (Pdf _) => False | _ => True end ->
  PDFProcessor.split_pdf p k w =
  (Raise (match files w !! p with
          | Some _ => PdfReadError
          | None => FileNotFoundError
          end), w).
Proof.
  intros Hp. rewrite split_pdf_unfold, log_and_reraise_run.
  unfold bind, PyPDF2.PdfReader.
  destruct (files w !! p) as [[?|?|?]|]; done.
Qed.

Lemma split_pdf_input w p k r w' :
  staged p ->
  PDFProcessor.split_pdf p k w = (r, w') ->
  match r with
  | Ok _ => files w' !! p = None
  | Raise _ => files w' !! p = files w !! p
  end.
Proof.
  intros Hst. destruct (files w !! p) as [[pages|?|?]|] eqn:Hp.
  2-4: rewrite split_pdf_not_pdf by (by rewrite Hp); by intros [= <- <-].
  destruct (Z.lt_trichotomy k 0) as [Hneg|[->|Hpos]].
  - rewrite (split_pdf_negative w p pages k Hp Hneg).
    intros [= <- <-]. apply lookup_delete_eq.
  - rewrite (split_pdf_zero w p pages Hp). intros [= <- <-]. done.
  - rewrite <- (Z2Nat.id k) by lia.
    destruct (split_pdf_outcome w p pages (Z.to_nat k) Hp ltac:(lia))
      as (j & r0 & w0 & Hrun & Hcases).
    rewrite Hrun. intros [= <- <-].
    destruct Hcases as [(-> & _ & ->)|(-> & _ & _ & ->)].
    + apply lookup_delete_eq.
    + rewrite lookup_write_chunks_other; [done|].
      intros i _. by apply chunk_path_not_staged.
Qed.

Local Ltac run_done H := simpl in H; injection H as <- <-; done.

(** C2, as the code has it. When the transformation step of an operation
    on staged files succeeds, every staged input is gone afterwards; when it
    raises, no handler removes anything and every staged input is exactly
    as it was before. *)
Theorem staged_input_removed_only_on_success
    (op : Operation) (w w' : World) (r : Result (list string)) :
  Forall staged (inputs op) ->
  transform op w = (r, w') ->
  forall p, p ∈ inputs op ->
    match r with
    | Ok _ => files w' !! p = None
    | Raise _ => files w' !! p = files w !! p
    end.
Proof.
  intros Hst Hrun p Hin. destruct op as [paths out|q text out|q|q k|q angle out];
    simpl in Hin, Hst, Hrun.
  - unfold bind in Hrun. rewrite merge_pdfs_run in Hrun.
    destruct (fst (for_each paths merge_read [] w)) as [merger|e].
    + simpl in Hrun. destruct (writable w (os.path_join OUTPUT_FOLDER out)).
      * injection Hrun as <- <-. simpl. by rewrite lookup_remove_all, decide_True.
      * run_done Hrun.
    + run_done Hrun.
  - apply list_elem_of_singleton in Hin as ->.
    unfold bind in Hrun. rewrite add_watermark_run in Hrun.
    destruct (files w !! q) as [[pages|?|?]|] eqn:Hq; try run_done Hrun.
    simpl in Hrun. destruct (writable w (os.path_join OUTPUT_FOLDER out)).
    + injection Hrun as <- <-. apply lookup_delete_eq.
    + run_done Hrun.
  - apply list_elem_of_singleton in Hin as ->.
    unfold bind in Hrun. rewrite extract_text_run in Hrun.
    destruct (files w !! q) as [[pages|?|?]|] eqn:Hq; try run_done Hrun.
    simpl in Hrun. destruct (writable w (extract_output_path w)).
    + injection Hrun as <- <-. apply lookup_delete_eq.
    + run_done Hrun.
  - apply list_elem_of_singleton in Hin as ->.
    apply (split_pdf_input w q k r w'); [|done]. by inversion Hst.
  - apply list_elem_of_singleton in Hin as ->.
    unfold bind in Hrun. rewrite rotate_pdf_run in Hrun.
    destruct (files w !! q) as [[pages|?|?]|] eqn:Hq; try run_done Hrun.
    destruct (decide (pages = [] \/ (angle mod 90 = 0)%Z)); [|run_done Hrun].
    simpl in Hrun. destruct (writable w (os.path_join OUTPUT_FOLDER out)).
    + injection Hrun as <- <-. apply lookup_delete_eq.
    + run_done Hrun.
Qed.

Lemma staged_input_removed_only_on_success_witness :
  files (snd (transform (Watermark "uploads/a.pdf" "draft" "marked.pdf") small_world))
    !! "uploads/a.pdf" = None.
Proof.
  apply (staged_input_removed_only_on_success
           (Watermark "uploads/a.pdf" "draft" "marked.pdf") small_world
           (snd (transform (Watermark "uploads/a.pdf" "draft" "marked.pdf") small_world))
           (Ok ["outputs/marked.pdf"])).
  - repeat constructor. exists "a.pdf". reflexivity.
  - reflexivity.
  - simpl. left.
Defined.

(** C2, as stated, fails: a staged upload that is not a PDF makes the
    watermark step raise, and the upload is still in the staging area. *)
Lemma failed_watermark_keeps_staged_input :
  fst (PDFProcessor.add_watermark "uploads/bad.pdf" "draft" "marked.pdf" broken_world)
    = Raise PdfReadError /\
  files (snd (PDFProcessor.add_watermark "uploads/bad.pdf" "draft" "marked.pdf" broken_world))
    !! "uploads/bad.pdf" = Some (Raw "not a pdf").
Proof. split; vm_compute; reflexivity. Qed.

(** ** Inputs that are not there *)

Lemma single_op_missing_input w p :
  files w !! p = None ->
  (forall text out, PDFProcessor.add_watermark p text out w = (Raise FileNotFoundError, w)) /\
  PDFProcessor.extract_text p w = (Raise FileNotFoundError, w) /\
  (forall k, PDFProcessor.split_pdf p k w = (Raise FileNotFoundError, w)) /\
  (forall angle out, PDFProcessor.rotate_pdf p angle out w = (Raise FileNotFoundError, w)).
Proof.
  intros Hp. repeat split; intros.
  - by rewrite add_watermark_run, Hp.
  - by rewrite extract_text_run, Hp.
  - rewrite split_pdf_not_pdf; by rewrite Hp.
  - by rewrite rotate_pdf_run, Hp.
Qed.

Lemma merge_read_skips_missing w p before after :
  files w !! p = None ->
  for_each (before ++ p :: after) merge_read [] w
  = for_each (before ++ after) merge_read [] w.
Proof.
  intros Hp. rewrite !for_each_app. unfold bind.
  pose proof (merge_read_loop_world before [] w) as Hw.
  destruct (for_each before merge_read [] w) as [[merger|e] w1]; simpl in Hw; subst w1;
    [|reflexivity].
  by rewrite for_each_cons, merge_read_run, Hp.
Qed.

(** C3, as the code has it. When the saved path does not exist, watermark,
    extract, split and rotate raise [FileNotFoundError] and change nothing;
    merge tests each path first and runs exactly as if the missing path had
    not been in its list, and it succeeds with the pages of the inputs that
    are there when each of them is a valid PDF and the output can be
    written.  The paths are saved uploads and the output name is plain. *)
Theorem missing_input_raises_except_in_merge
    (w : World) (p : string) (before after : list string) (out : string) :
  files w !! p = None ->
  saved p ->
  Forall saved (before ++ after) ->
  plain_name out ->
  (forall text o, PDFProcessor.add_watermark p text o w = (Raise FileNotFoundError, w)) /\
  PDFProcessor.extract_text p w = (Raise FileNotFoundError, w) /\
  (forall k, PDFProcessor.split_pdf p k w = (Raise FileNotFoundError, w)) /\
  (forall angle o, PDFProcessor.rotate_pdf p angle o w = (Raise FileNotFoundError, w)) /\
  PDFProcessor.merge_pdfs (before ++ p :: after) out w
    = PDFProcessor.merge_pdfs (before ++ after) out w /\
  (Forall (readable w) (before ++ after) ->
   writable w (os.path_join OUTPUT_FOLDER out) = true ->
   exists w',
     PDFProcessor.merge_pdfs (before ++ p :: after) out w
       = (Ok (os.path_join OUTPUT_FOLDER out), w') /\
     files w' !! os.path_join OUTPUT_FOLDER out
       = Some (Pdf (concat (pages_at w <$> (before ++ after))))).
Proof.
  intros Hp Hsaved Hrest _.
  assert (p <> os.path_join OUTPUT_FOLDER out) as Hout
    by (by apply staged_not_output, saved_staged).
  destruct (single_op_missing_input w p Hp) as (Hw & He & Hs & Hr).
  assert (PDFProcessor.merge_pdfs (before ++ p :: after) out w
          = PDFProcessor.merge_pdfs (before ++ after) out w) as Hskip.
  { rewrite !merge_pdfs_run, merge_read_skips_missing by done.
    destruct (fst (for_each (before ++ after) merge_read [] w)) as [merger|e]; [|reflexivity].
    simpl. destruct (writable w (os.path_join OUTPUT_FOLDER out)); [|reflexivity].
    rewrite remove_all_absent; [reflexivity|]. by rewrite lookup_insert_ne. }
  repeat split; try assumption.
  intros Hread Hwr. rewrite Hskip, merge_pdfs_run, (merge_read_loop_ok _ [] w Hread).
  simpl. rewrite Hwr. eexists. split; [reflexivity|]. simpl.
  rewrite lookup_remove_all, decide_False, lookup_insert_eq; [done|].
  intros Hin. apply Forall_saved_staged in Hrest. rewrite Forall_forall in Hrest.
  by apply (staged_not_output _ out (Hrest _ Hin)).
Qed.

Lemma missing_input_raises_except_in_merge_witness :
  (forall text o, PDFProcessor.add_watermark "uploads/gone.pdf" text o small_world
                  = (Raise FileNotFoundError, small_world)) /\
  PDFProcessor.extract_text "uploads/gone.pdf" small_world
    = (Raise FileNotFoundError, small_world) /\
  (forall k, PDFProcessor.split_pdf "uploads/gone.pdf" k small_world
             = (Raise FileNotFoundError, small_world)) /\
  (forall angle o, PDFProcessor.rotate_pdf "uploads/gone.pdf" angle o small_world
                   = (Raise FileNotFoundError, small_world)) /\
  PDFProcessor.merge_pdfs (["uploads/a.pdf"] ++ "uploads/gone.pdf" :: ["uploads/b.pdf"])
                          "merged.pdf" small_world
    = PDFProcessor.merge_pdfs (["uploads/a.pdf"] ++ ["uploads/b.pdf"]) "merged.pdf" small_world /\
  (Forall (readable small_world) (["uploads/a.pdf"] ++ ["uploads/b.pdf"]) ->
   writable small_world (os.path_join OUTPUT_FOLDER "merged.pdf") = true ->
   exists w',
     PDFProcessor.merge_pdfs (["uploads/a.pdf"] ++ "uploads/gone.pdf" :: ["uploads/b.pdf"])
                             "merged.pdf" small_world
       = (Ok (os.path_join OUTPUT_FOLDER "merged.pdf"), w') /\
     files w' !! os.path_join OUTPUT_FOLDER "merged.pdf"
       = Some (Pdf (concat (pages_at small_world
                              <$> (["uploads/a.pdf"] ++ ["uploads/b.pdf"]))))).
Proof.
  apply (missing_input_raises_except_in_merge small_world "uploads/gone.pdf"
           ["uploads/a.pdf"] ["uploads/b.pdf"] "merged.pdf").
  - reflexivity.
  - exists "gone.pdf". repeat split; (reflexivity || discriminate).
  - constructor; [|constructor; [|constructor]];
      [exists "a.pdf" | exists "b.pdf"]; repeat split; (reflexivity || discriminate).
  - repeat split; (reflexivity || discriminate).
Defined.

(** C3, as stated, fails for merge: with one of three staged paths missing
    the merge succeeds and the artifact holds the pages of the other two. *)
Lemma merge_skips_a_missing_input :
  files small_world !! "uploads/gone.pdf" = None /\
  fst (PDFProcessor.merge_pdfs ["uploads/a.pdf"; "uploads/gone.pdf"; "uploads/b.pdf"]
                               "merged.pdf" small_world)
    = Ok "outputs/merged.pdf" /\
  files (snd (PDFProcessor.merge_pdfs ["uploads/a.pdf"; "uploads/gone.pdf"; "uploads/b.pdf"]
                                      "merged.pdf" small_world))
    !! "outputs/merged.pdf" = Some (Pdf (three_pages ++ [plain "x"])).
Proof. repeat split; vm_compute; reflexivity. Qed.

(** ** Validation in the routes *)

Section RouteFacts.

Lemma valid_upload_false file :
  allowed_file (filename file) = false -> valid_upload file = false.
Proof. intros H. unfold valid_upload. rewrite H. apply andb_false_r. Qed.

Lemma form_get_int_run py_int req key fallback w :
  form_get_int py_int req key fallback w =
  match multi_get key (request_form req) with
  | None => (Ok fallback, w)
  | Some text =>
      match py_int text with
      | Some n => (Ok n, w)
      | None => (Raise ValueError, w)
      end
  end.
Proof.
  unfold form_get_int. destruct (multi_get key (request_form req)) as [text|]; [|reflexivity].
  destruct (py_int text); reflexivity.
Qed.

End RouteFacts.

(** C8, as the code has it. For an upload whose name fails [allowed_file],
    the watermark and extract routes answer 400; the split and rotate routes
    answer 400 as well when their integer form field is absent or holds text
    that [int] accepts; and whatever they answer, the four routes leave the
    world as it was: nothing is staged.  This holds for any sanitiser of
    file names and any [int]. *)
Theorem invalid_upload_rejected_before_staging
    (secure_filename : string -> string) (py_int : string -> option Z)
    (req : Request) (file : FileStorage) (w : World) :
  multi_get "file" (request_files req) = Some file ->
  allowed_file (filename file) = false ->
  add_watermark_route secure_filename req w
    = (Ok (ErrorMessage "Valid PDF file required", 400%nat), w) /\
  extract_text_route secure_filename req w
    = (Ok (ErrorMessage "Valid PDF file required", 400%nat), w) /\
  (int_field_ok py_int req "pages_per_file" ->
   split_pdf_route secure_filename py_int req w
     = (Ok (ErrorMessage "Valid PDF file required", 400%nat), w)) /\
  (int_field_ok py_int req "angle" ->
   rotate_pdf_route secure_filename py_int req w
     = (Ok (ErrorMessage "Valid PDF file required", 400%nat), w)) /\
  snd (split_pdf_route secure_filename py_int req w) = w /\
  snd (rotate_pdf_route secure_filename py_int req w) = w.
Proof.
  intros Hfile Hname. apply valid_upload_false in Hname.
  unfold add_watermark_route, extract_text_route, split_pdf_route, rotate_pdf_route,
    route, try_except.
  rewrite Hfile, Hname. simpl negb. cbv iota.
  split; [reflexivity|]. split; [reflexivity|].
  unfold bind. rewrite !form_get_int_run. unfold int_field_ok.
  repeat split.
  - destruct (multi_get "pages_per_file" (request_form req)) as [text|]; [|reflexivity].
    by intros [n ->].
  - destruct (multi_get "angle" (request_form req)) as [text|]; [|reflexivity].
    by intros [n ->].
  - destruct (multi_get "pages_per_file" (request_form req)) as [text|]; [|reflexivity].
    destruct (py_int text); reflexivity.
  - destruct (multi_get "angle" (request_form req)) as [text|]; [|reflexivity].
    destruct (py_int text); reflexivity.
Qed.

Lemma invalid_upload_rejected_before_staging_witness :
  (int_field_ok PyInt.parse text_file_request "pages_per_file" /\
   int_field_ok PyInt.parse text_file_request "angle") /\
  add_watermark_route (fun name => name) text_file_request small_world
    = (Ok (ErrorMessage "Valid PDF file required", 400%nat), small_world) /\
  extract_text_route (fun name => name) text_file_request small_world
    = (Ok (ErrorMessage "Valid PDF file required", 400%nat), small_world) /\
  split_pdf_route (fun name => name) PyInt.parse text_file_request small_world
    = (Ok (ErrorMessage "Valid PDF file required", 400%nat), small_world) /\
  rotate_pdf_route (fun name => name) PyInt.parse text_file_request small_world
    = (Ok (ErrorMessage "Valid PDF file required", 400%nat), small_world) /\
  snd (split_pdf_route (fun name => name) PyInt.parse text_file_request small_world)
    = small_world /\
  snd (rotate_pdf_route (fun name => name) PyInt.parse text_file_request small_world)
    = small_world.
Proof.
  assert (int_field_ok PyInt.parse text_file_request "pages_per_file") as Hcount
    by (vm_compute; eauto).
  assert (int_field_ok PyInt.parse text_file_request "angle") as Hangle
    by (vm_compute; eauto).
  destruct (invalid_upload_rejected_before_staging (fun name => name) PyInt.parse
              text_file_request (mkFileStorage "notes.txt" (Raw "hello")) small_world
              eq_refl eq_refl)
    as (Hw & He & Hs & Hr & Hs' & Hr').
  split; [split; assumption|].
  split; [exact Hw|]. split; [exact He|].
  split; [exact (Hs Hcount)|]. split; [exact (Hr Hangle)|].
  split; [exact Hs' | exact Hr'].
Defined.

(** C8, as stated, fails: the split route reads its page count before it
    looks at the file name, so a text file sent with a count that is not a
    number is answered with 500, not 400. *)
Lemma split_route_answers_500_before_validation :
  allowed_file "notes.txt" = false /\
  PyInt.parse "two" = None /\
  split_pdf_route (fun name => name) PyInt.parse bad_count_request small_world
    = (Ok (ErrorException ValueError, 500%nat), small_world).
Proof. repeat split; vm_compute; reflexivity. Qed.

(** ** The names of the artifacts *)

Section Stamps.

Lemma digit_inj a b : PyStr.digit a = PyStr.digit b -> a mod 10 = b mod 10.
Proof.
  unfold PyStr.digit. intros H. apply (f_equal nat_of_ascii) in H.
  pose proof (Nat.mod_upper_bound a 10 ltac:(lia)).
  pose proof (Nat.mod_upper_bound b 10 ltac:(lia)).
  rewrite !nat_ascii_embedding in H by lia. lia.
Qed.

Lemma fixed2_inj a b :
  (a < 100)%nat -> (b < 100)%nat ->
  PyStr.digit (a / 10) = PyStr.digit (b / 10) ->
  PyStr.digit (a / 1) = PyStr.digit (b / 1) -> a = b.
Proof.
  intros Ha Hb H1 H0. apply digit_inj in H1, H0.
  rewrite !Nat.div_1_r in H0.
  pose proof (Nat.div_mod_eq a 10). pose proof (Nat.div_mod_eq b 10).
  assert (a / 10 < 10)%nat by (apply Nat.Div0.div_lt_upper_bound; lia).
  assert (b / 10 < 10)%nat by (apply Nat.Div0.div_lt_upper_bound; lia).
  rewrite (Nat.mod_small (a / 10)) in H1 by lia.
  rewrite (Nat.mod_small (b / 10)) in H1 by lia. lia.
Qed.

Lemma mod100_tens a : (a mod 100 / 10) mod 10 = (a / 10) mod 10.
Proof.
  rewrite (Nat.div_mod_eq a 100) at 2.
  replace (100 * (a / 100))%nat with (10 * (a / 100) * 10)%nat by lia.
  rewrite Nat.div_add_l by lia.
  rewrite Nat.add_comm, (Nat.mul_comm 10), Nat.Div0.mod_add. reflexivity.
Qed.

Lemma mod100_units a : (a mod 100) mod 10 = a mod 10.
Proof.
  rewrite (Nat.div_mod_eq a 100) at 2.
  replace (100 * (a / 100))%nat with (10 * (a / 100) * 10)%nat by lia.
  rewrite Nat.add_comm, Nat.Div0.mod_add. reflexivity.
Qed.

Lemma fixed4_inj a b :
  (a < 10 ^ 4)%nat -> (b < 10 ^ 4)%nat ->
  PyStr.digit (a / 1000) = PyStr.digit (b / 1000) ->
  PyStr.digit (a / 100) = PyStr.digit (b / 100) ->
  PyStr.digit (a / 10) = PyStr.digit (b / 10) ->
  PyStr.digit (a / 1) = PyStr.digit (b / 1) -> a = b.
Proof.
  change (10 ^ 4)%nat with (100 * 100)%nat.
  intros Ha Hb H3 H2 H1 H0.
  assert (a / 100 = b / 100) as Hhi.
  { apply fixed2_inj.
    - apply Nat.Div0.div_lt_upper_bound; lia.
    - apply Nat.Div0.div_lt_upper_bound; lia.
    - rewrite !Nat.Div0.div_div. exact H3.
    - rewrite !Nat.div_1_r. exact H2. }
  assert (a mod 100 = b mod 100) as Hlo.
  { apply fixed2_inj.
    - apply Nat.mod_upper_bound; lia.
    - apply Nat.mod_upper_bound; lia.
    - apply digit_inj in H1. unfold PyStr.digit.
      rewrite !mod100_tens, H1. reflexivity.
    - apply digit_inj in H0. rewrite !Nat.div_1_r in *. unfold PyStr.digit.
      rewrite !mod100_units, H0. reflexivity. }
  rewrite (Nat.div_mod_eq a 100), (Nat.div_mod_eq b 100). congruence.
Qed.

Lemma strftime_stamp_inj d1 d2 :
  fits d1 -> fits d2 -> strftime_stamp d1 = strftime_stamp d2 -> d1 = d2.
Proof.
  destruct d1 as [y1 m1 a1 h1 i1 s1], d2 as [y2 m2 a2 h2 i2 s2].
  unfold fits, strftime_stamp. simpl year; simpl month; simpl day; simpl hour;
    simpl minute; simpl second.
  intros (Hy1 & Hm1 & Ha1 & Hh1 & Hi1 & Hs1) (Hy2 & Hm2 & Ha2 & Hh2 & Hi2 & Hs2) H.
  cbn [PyStr.fixed String.app] in H.
  change (10 ^ 3)%nat with 1000%nat in H. change (10 ^ 2)%nat with 100%nat in H.
  change (10 ^ 1)%nat with 10%nat in H. change (10 ^ 0)%nat with 1%nat in H.
  injection H as Y3 Y2 Y1 Y0 M1 M0 A1 A0 B1 B0 I1 I0 S1 S0.
  f_equal; solve [by apply fixed4_inj | by apply fixed2_inj].
Qed.

Lemma length_strftime_stamp d : String.length (strftime_stamp d) = 15%nat.
Proof. reflexivity. Qed.

Lemma append_inj_length a b x y :
  String.length a = String.length b -> a +:+ x = b +:+ y -> a = b /\ x = y.
Proof.
  revert b. induction a as [|c a IH]; intros [|d b] Hlen H; try discriminate.
  - done.
  - injection Hlen as Hlen. injection H as -> H.
    destruct (IH b Hlen H) as [-> ->]. done.
Qed.

Lemma stamped_inj base ext d1 d2 :
  stamped base d1 ext = stamped base d2 ext -> strftime_stamp d1 = strftime_stamp d2.
Proof.
  unfold stamped. intros H. apply String.app_inj in H.
  apply (String.app_inj "_") in H.
  apply append_inj_length in H as [H _]; [exact H|].
  by rewrite !length_strftime_stamp.
Qed.

End Stamps.

Lemma generate_filename_run base ext w :
  generate_filename base ext w = (Ok (stamped base (clock w (ticks w)) ext), tick w).
Proof. reflexivity. Qed.

Lemma create_cover_letter_run name position company email phone out w :
  exists doc,
    PDFProcessor.create_cover_letter name position company email phone out w =
    if writable w (os.path_join OUTPUT_FOLDER out)
    then (Ok (os.path_join OUTPUT_FOLDER out),
          set_files (tick w) (<[os.path_join OUTPUT_FOLDER out := doc]> (files w)))
    else (Raise OSError, tick w).
Proof.
  unfold PDFProcessor.create_cover_letter. eexists.
  rewrite log_and_reraise_run.
  unfold bind, datetime_now, os.write_file, PDFProcessor.output_folder. simpl.
  destruct (writable w (os.path_join OUTPUT_FOLDER out)); reflexivity.
Qed.

Lemma split_pdf_names p k w outs w' i out :
  PDFProcessor.split_pdf p k w = (Ok outs, w') ->
  outs !! i = Some out ->
  exists base,
    out = os.path_join OUTPUT_FOLDER (stamped base (clock w (ticks w + i)) ".pdf").
Proof.
  destruct (files w !! p) as [[pages|?|?]|] eqn:Hp.
  2-4: rewrite split_pdf_not_pdf by (by rewrite Hp); discriminate.
  destruct (Z.lt_trichotomy k 0) as [Hneg|[->|Hpos]].
  - rewrite (split_pdf_negative w p pages k Hp Hneg). intros [= <- <-]. discriminate.
  - rewrite (split_pdf_zero w p pages Hp). discriminate.
  - rewrite <- (Z2Nat.id k) by lia.
    destruct (split_pdf_outcome w p pages (Z.to_nat k) Hp ltac:(lia))
      as (j & r0 & w0 & Hrun & Hcases).
    rewrite Hrun. destruct Hcases as [(-> & _ & _)|(-> & _)]; [|discriminate].
    intros [= <- <-] Hi. apply list_lookup_fmap_Some in Hi as (i' & -> & Hi).
    apply lookup_seq in Hi as [-> _].
    exists (chunk_base (length pages) (Z.to_nat k) i). reflexivity.
Qed.

(** C9, as the code has it. A generated name is the base, an underscore,
    the clock reading printed as [YYYYMMDD_HHMMSS] (15 characters), and the
    extension.  [extract_text] and every chunk of [split_pdf] get such a
    name; merge, watermark, rotate and cover letter write to the name the
    caller gave.  Two generated names with the same base and extension
    differ as soon as the printed clock readings differ, and the printed
    readings of two different dates and times (years below 10000) differ. *)
Theorem artifact_names_generated_or_verbatim :
  (forall base ext w,
     generate_filename base ext w
     = (Ok (base +:+ "_" +:+ strftime_stamp (clock w (ticks w)) +:+ ext), tick w)) /\
  (forall d, String.length (strftime_stamp d) = 15%nat /\
             String.get 8 (strftime_stamp d) = Some "_"%char) /\
  (forall p w out preview w',
     PDFProcessor.extract_text p w = (Ok (out, preview), w') ->
     out = os.path_join OUTPUT_FOLDER
             ("extracted_text" +:+ "_" +:+ strftime_stamp (clock w (ticks w)) +:+ ".txt")) /\
  (forall p k w outs w' i out,
     PDFProcessor.split_pdf p k w = (Ok outs, w') ->
     outs !! i = Some out ->
     exists base,
       out = os.path_join OUTPUT_FOLDER
               (base +:+ "_" +:+ strftime_stamp (clock w (ticks w + i)) +:+ ".pdf")) /\
  (forall paths name w out w',
     PDFProcessor.merge_pdfs paths name w = (Ok out, w') ->
     out = os.path_join OUTPUT_FOLDER name) /\
  (forall p text name w out w',
     PDFProcessor.add_watermark p text name w = (Ok out, w') ->
     out = os.path_join OUTPUT_FOLDER name) /\
  (forall p angle name w out w',
     PDFProcessor.rotate_pdf p angle name w = (Ok out, w') ->
     out = os.path_join OUTPUT_FOLDER name) /\
  (forall who position company email phone name w out w',
     PDFProcessor.create_cover_letter who position company email phone name w = (Ok out, w') ->
     out = os.path_join OUTPUT_FOLDER name) /\
  (forall base ext d1 d2,
     strftime_stamp d1 <> strftime_stamp d2 ->
     base +:+ "_" +:+ strftime_stamp d1 +:+ ext <> base +:+ "_" +:+ strftime_stamp d2 +:+ ext) /\
  (forall d1 d2, fits d1 -> fits d2 -> d1 <> d2 -> strftime_stamp d1 <> strftime_stamp d2).
Proof.
  split; [intros; apply generate_filename_run|].
  split; [intros d; split; reflexivity|].
  split.
  { intros p w out preview w'. rewrite extract_text_run.
    destruct (files w !! p) as [[pages|?|?]|]; try discriminate.
    simpl. destruct (writable w (extract_output_path w)); [|discriminate].
    by intros [= <- _ _]. }
  split; [apply split_pdf_names|].
  split.
  { intros paths name w out w'. rewrite merge_pdfs_run.
    destruct (fst (for_each paths merge_read [] w)); [|discriminate].
    simpl. destruct (writable w (os.path_join OUTPUT_FOLDER name)); [|discriminate].
    by intros [= <- _]. }
  split.
  { intros p text name w out w'. rewrite add_watermark_run.
    destruct (files w !! p) as [[pages|?|?]|]; try discriminate.
    simpl. destruct (writable w (os.path_join OUTPUT_FOLDER name)); [|discriminate].
    by intros [= <- _]. }
  split.
  { intros p angle name w out w'. rewrite rotate_pdf_run.
    destruct (files w !! p) as [[pages|?|?]|]; try discriminate.
    destruct (decide (pages = [] \/ (angle mod 90 = 0)%Z)); [|discriminate].
    simpl. destruct (writable w (os.path_join OUTPUT_FOLDER name)); [|discriminate].
    by intros [= <- _]. }
  split.
  { intros who position company email phone name w out w'.
    destruct (create_cover_letter_run who position company email phone name w) as [doc ->].
    destruct (writable w (os.path_join OUTPUT_FOLDER name)); [|discriminate].
    by intros [= <- _]. }
  split.
  { intros base ext d1 d2 Hne Heq. apply Hne. by apply (stamped_inj base ext). }
  intros d1 d2 H1 H2 Hne Heq. apply Hne. by apply strftime_stamp_inj.
Qed.

(** C9, as stated, fails: two extractions served within the same second
    get the same generated name, and the second artifact replaces the
    first. *)
Lemma same_second_same_generated_name :
  fst (PDFProcessor.extract_text "uploads/a.pdf" small_world)
    = Ok ("outputs/extracted_text_20240307_120000.txt", full_text three_pages) /\
  fst (PDFProcessor.extract_text "uploads/b.pdf"
         (snd (PDFProcessor.extract_text "uploads/a.pdf" small_world)))
    = Ok ("outputs/extracted_text_20240307_120000.txt", full_text [plain "x"]) /\
  files (snd (PDFProcessor.extract_text "uploads/b.pdf"
                (snd (PDFProcessor.extract_text "uploads/a.pdf" small_world))))
    !! "outputs/extracted_text_20240307_120000.txt" = Some (Text (full_text [plain "x"])).
Proof. repeat split; vm_compute; reflexivity. Qed.

(** * Further properties *)

(** ** The merge route *)

Lemma merge_pdfs_route_unfold sf req :
  merge_pdfs_route sf req =
  route (
    match multi_get "files" (request_files req) with
    | None => ret (ErrorMessage "No files provided", 400%nat)
    | Some _ =>
        let files := multi_getlist "files" (request_files req) in
        let output_name := form_get req "output_name" "merged.pdf" in
        if (length files <? 2)%nat
        then ret (ErrorMessage "At least 2 files required for merging", 400%nat)
        else
          file_paths <- for_each files (merge_stage sf) [] ;;
          if (length file_paths <? 2)%nat
          then ret (ErrorMessage "Valid PDF files required", 400%nat)
          else
            output_path <- PDFProcessor.merge_pdfs file_paths output_name ;;
            ret (SuccessFile ("Successfully merged "
                              +:+ PyStr.of_Z (Z.of_nat (length file_paths))
                              +:+ " PDF files")
                             (os.path_basename output_path), 200%nat)
    end).
Proof. reflexivity. Qed.

Lemma multi_getlist_cons {V} key k (v : V) d :
  multi_getlist key ((k, v) :: d) =
  if decide (k = key) then v :: multi_getlist key d else multi_getlist key d.
Proof.
  unfold multi_getlist. rewrite filter_cons. simpl.
  destruct (decide (k = key)); reflexivity.
Qed.

Lemma multi_get_getlist {V} key (d : list (string * V)) :
  multi_get key d = head (multi_getlist key d).
Proof.
  induction d as [|[k v] d IH]; [reflexivity|].
  rewrite multi_getlist_cons. simpl. destruct (decide (k = key)); [reflexivity | exact IH].
Qed.

Lemma plain_name_not_absolute name : plain_name name -> PyStr.startswith "/" name = false.
Proof.
  intros [Hslash _]. destruct name as [|c name]; [reflexivity|]. simpl in *.
  destruct (decide (c = "/"%char)); [discriminate|]. by apply bool_decide_eq_false.
Qed.

Lemma stage_path_saved sf file : plain_upload sf file -> saved (stage_path sf file).
Proof.
  intros H. exists (sf (filename file)). split; [|exact H].
  unfold stage_path, os.path_join. rewrite (plain_name_not_absolute _ H). reflexivity.
Qed.

Lemma stage_run sf file w :
  stage sf file w =
  if writable w (stage_path sf file)
  then (Ok (stage_path sf file),
        set_files w (<[stage_path sf file := stream file]> (files w)))
  else (Raise OSError, w).
Proof.
  unfold stage, bind, os.write_file. fold (stage_path sf file).
  destruct (writable w (stage_path sf file)); reflexivity.
Qed.

Lemma merge_stage_loop sf uploads acc w :
  (forall file, file ∈ uploads -> valid_upload file = true ->
                writable w (stage_path sf file) = true) ->
  for_each uploads (merge_stage sf) acc w
  = (Ok (acc ++ (stage_path sf <$> List.filter valid_upload uploads)),
     set_files w (stage_all sf (List.filter valid_upload uploads) (files w))).
Proof.
  revert acc w. induction uploads as [|file uploads IH]; intros acc w Hwr.
  - simpl. rewrite app_nil_r. unfold ret. by rewrite set_files_id.
  - rewrite for_each_cons. unfold merge_stage at 1. simpl List.filter.
    destruct (valid_upload file) eqn:Hvalid.
    + unfold bind. rewrite stage_run, (Hwr file) by (done || left). unfold ret at 1.
      rewrite IH by (intros f Hf; apply Hwr; by right).
      simpl. rewrite <- app_assoc. reflexivity.
    + unfold ret at 1. apply IH. intros f Hf. apply Hwr. by right.
Qed.

Lemma lookup_stage_all_other sf uploads (fs : gmap string File) q :
  (forall file, file ∈ uploads -> stage_path sf file <> q) ->
  stage_all sf uploads fs !! q = fs !! q.
Proof.
  unfold stage_all. revert fs.
  induction uploads as [|file uploads IH]; intros fs Hq; [reflexivity|].
  simpl. rewrite IH by (intros f Hf; apply Hq; by right).
  apply lookup_insert_ne, Hq. left.
Qed.

Lemma lookup_stage_all sf uploads (fs : gmap string File) i file :
  NoDup (stage_path sf <$> uploads) ->
  uploads !! i = Some file ->
  stage_all sf uploads fs !! stage_path sf file = Some (stream file).
Proof.
  unfold stage_all. revert fs i.
  induction uploads as [|f uploads IH]; intros fs i Hnd Hi; [done|].
  rewrite fmap_cons in Hnd. apply NoDup_cons in Hnd as [Hnin Hnd]. simpl.
  destruct i as [|i]; simpl in Hi.
  - injection Hi as ->.
    fold (stage_all sf uploads (<[stage_path sf file := stream file]> fs)).
    rewrite lookup_stage_all_other, lookup_insert_eq; [done|].
    intros g Hg Heq. apply Hnin. rewrite <- Heq. apply list_elem_of_fmap. eauto.
  - by apply (IH _ i).
Qed.

(** X1. With fewer than two uploaded parts named [files] the merge route
    answers 400 and leaves the world alone: nothing is staged. *)
Theorem merge_route_needs_two_uploads
    (secure_filename : string -> string) (req : Request) (w : World) :
  (length (multi_getlist "files" (request_files req)) < 2)%nat ->
  exists message,
    merge_pdfs_route secure_filename req w = (Ok (ErrorMessage message, 400%nat), w).
Proof.
  intros Hfew. rewrite merge_pdfs_route_unfold. unfold route, try_except.
  destruct (multi_get "files" (request_files req)); [|eauto].
  cbv zeta. rewrite (proj2 (Nat.ltb_lt _ _) Hfew). eauto.
Qed.

Lemma merge_route_needs_two_uploads_witness :
  exists message,
    merge_pdfs_route (fun name => name) one_part_request small_world
    = (Ok (ErrorMessage message, 400%nat), small_world).
Proof.
  apply (merge_route_needs_two_uploads (fun name => name) one_part_request small_world).
  simpl. lia.
Defined.

(** X2. When two or more parts are uploaded and exactly one of them has an
    allowed name, the merge route answers 400, but it has already saved that
    one upload under its sanitised name: the file stays in the staging
    area. *)
Theorem merge_route_leaves_lone_valid_upload_staged
    (secure_filename : string -> string) (req : Request) (w : World) (file : FileStorage) :
  (2 <= length (multi_getlist "files" (request_files req)))%nat ->
  List.filter valid_upload (multi_getlist "files" (request_files req)) = [file] ->
  plain_upload secure_filename file ->
  writable w (stage_path secure_filename file) = true ->
  merge_pdfs_route secure_filename req w
  = (Ok (ErrorMessage "Valid PDF files required", 400%nat),
     set_files w (<[stage_path secure_filename file := stream file]> (files w))).
Proof.
  intros Hmany Hone _ Hwr. rewrite merge_pdfs_route_unfold. unfold route, try_except.
  rewrite multi_get_getlist.
  destruct (multi_getlist "files" (request_files req)) as [|f0 ups] eqn:Hups;
    [simpl in Hmany; lia|].
  change (head (f0 :: ups)) with (Some f0). cbv zeta.
  rewrite (proj2 (Nat.ltb_ge _ _) Hmany).
  unfold bind. cbv beta iota. rewrite merge_stage_loop.
  - rewrite Hone. reflexivity.
  - intros f Hf Hvalid.
    assert (f ∈ List.filter valid_upload (f0 :: ups)) as Hin
      by (apply list_elem_of_In, filter_In; split; [by apply list_elem_of_In | done]).
    rewrite Hone in Hin. apply list_elem_of_singleton in Hin as ->. exact Hwr.
Qed.

Lemma merge_route_leaves_lone_valid_upload_staged_witness :
  merge_pdfs_route (fun name => name) lone_pdf_request small_world
  = (Ok (ErrorMessage "Valid PDF files required", 400%nat),
     set_files small_world
       (<[stage_path (fun name => name) upload_c := stream upload_c]> (files small_world))).
Proof.
  apply (merge_route_leaves_lone_valid_upload_staged (fun name => name)
           lone_pdf_request small_world upload_c).
  - simpl. lia.
  - reflexivity.
  - repeat split; (reflexivity || discriminate).
  - reflexivity.
Defined.

Lemma staged_uploads_readable sf uploads docs (fs : gmap string File) w1 :
  files w1 = stage_all sf uploads fs ->
  NoDup (stage_path sf <$> uploads) ->
  Forall (plain_upload sf) uploads ->
  Forall2 (fun file pages => stream file = Pdf pages) uploads docs ->
  Forall2 (fun p pages => staged p /\ files w1 !! p = Some (Pdf pages))
          (stage_path sf <$> uploads) docs.
Proof.
  intros Hfiles Hnd Habs Hdocs. apply Forall2_fmap_l.
  apply Forall2_same_length_lookup. split; [by eapply Forall2_length|].
  intros i file pages Hfile Hpages. split.
  - apply saved_staged, stage_path_saved. rewrite Forall_forall in Habs. apply Habs.
    by eapply list_elem_of_lookup_2.
  - rewrite Hfiles, (lookup_stage_all sf uploads fs i file Hnd Hfile).
    pose proof (Forall2_lookup_lr _ _ _ _ _ _ Hdocs Hfile Hpages) as ->. reflexivity.
Qed.

(** X3. The merge route from end to end.  When at least two of the
    uploaded parts have allowed names, each of them is a PDF, their
    sanitised names are plain and differ from one another, the output name
    is plain, and the staging and output paths can be written, the route
    answers 200 with the base name of the artifact; the artifact holds the
    pages of the accepted uploads in upload order, and none of them is left
    staged. *)
Theorem merge_route_merges_uploads_in_order
    (secure_filename : string -> string) (req : Request) (w : World)
    (docs : list (list Page)) :
  let uploads := List.filter valid_upload (multi_getlist "files" (request_files req)) in
  let output_path :=
    os.path_join OUTPUT_FOLDER (form_get req "output_name" "merged.pdf") in
  (2 <= length uploads)%nat ->
  Forall2 (fun file pages => stream file = Pdf pages) uploads docs ->
  NoDup (stage_path secure_filename <$> uploads) ->
  Forall (plain_upload secure_filename) uploads ->
  plain_name (form_get req "output_name" "merged.pdf") ->
  (forall file, file ∈ uploads -> writable w (stage_path secure_filename file) = true) ->
  writable w output_path = true ->
  exists w',
    merge_pdfs_route secure_filename req w
    = (Ok (SuccessFile ("Successfully merged " +:+ PyStr.of_Z (Z.of_nat (length uploads))
                        +:+ " PDF files")
                       (os.path_basename output_path), 200%nat), w') /\
    files w' !! output_path = Some (Pdf (concat docs)) /\
    forall file, file ∈ uploads -> files w' !! stage_path secure_filename file = None.
Proof.
  intros uploads output_path. subst uploads output_path.
  rewrite merge_pdfs_route_unfold. unfold route, try_except.
  rewrite multi_get_getlist.
  remember (multi_getlist "files" (request_files req)) as all eqn:Hall.
  intros Hmany Hdocs Hnd Habs _ Hwr Hout.
  pose proof (List.filter_length_le valid_upload all) as Hle.
  destruct all as [|f0 ups]; [simpl in Hmany; lia|].
  change (head (f0 :: ups)) with (Some f0). cbv zeta.
  rewrite (proj2 (Nat.ltb_ge (length (f0 :: ups)) 2)) by lia.
  unfold bind. cbv beta iota. rewrite merge_stage_loop.
  2:{ intros f Hf Hvalid. apply Hwr.
      apply list_elem_of_In, filter_In. split; [by apply list_elem_of_In | done]. }
  set (uploads := List.filter valid_upload (f0 :: ups)) in *.
  rewrite app_nil_l, length_fmap.
  rewrite (proj2 (Nat.ltb_ge (length uploads) 2)) by lia.
  set (w1 := set_files w (stage_all secure_filename uploads (files w))).
  pose proof (staged_uploads_readable secure_filename uploads docs (files w) w1
                eq_refl Hnd Habs Hdocs) as Hstaged.
  destruct (Forall2_staged_valid w1 _ docs Hstaged) as (Hread & Hpages & Hst).
  rewrite merge_pdfs_run, (merge_read_loop_ok _ [] w1 Hread). simpl.
  rewrite Hout, Hpages.
  eexists. split; [reflexivity|]. simpl. split.
  - rewrite lookup_remove_all, decide_False, lookup_insert_eq; [done|].
    intros Hin. rewrite Forall_forall in Hst.
    by apply (staged_not_output _ (form_get req "output_name" "merged.pdf") (Hst _ Hin)).
  - intros file Hfile. rewrite lookup_remove_all, decide_True; [done|].
    apply list_elem_of_fmap. eauto.
Qed.

Lemma merge_route_merges_uploads_in_order_witness :
  exists w',
    merge_pdfs_route (fun name => name) two_pdf_request small_world
    = (Ok (SuccessFile ("Successfully merged " +:+ PyStr.of_Z (Z.of_nat 2) +:+ " PDF files")
                       (os.path_basename (os.path_join OUTPUT_FOLDER "both.pdf")),
           200%nat), w') /\
    files w' !! os.path_join OUTPUT_FOLDER "both.pdf"
      = Some (Pdf (concat [three_pages; [plain "x"]])) /\
    forall file,
      file ∈ [upload_c; upload_d] ->
      files w' !! stage_path (fun name => name) file = None.
Proof.
  apply (merge_route_merges_uploads_in_order (fun name => name) two_pdf_request small_world
           [three_pages; [plain "x"]]).
  - apply Nat.leb_le. vm_compute. reflexivity.
  - vm_compute. repeat constructor.
  - apply (bool_decide_unpack _). vm_compute. exact I.
  - change (Forall (plain_upload (fun name => name)) [upload_c; upload_d]).
    constructor; [|constructor; [|constructor]];
      repeat split; (reflexivity || discriminate).
  - repeat split; (reflexivity || discriminate).
  - reflexivity.
  - reflexivity.
Defined.

(** X4. Two uploads whose sanitised names coincide are saved to the same
    staging path, the second over the first; the merge reads that path
    twice, so the artifact holds the pages of the second upload twice and
    none of the first.  (Sanitised name and output name are plain.) *)
Theorem merge_route_same_name_merges_last_upload_twice
    (secure_filename : string -> string) (req : Request) (w : World)
    (first second : FileStorage) (pages1 pages2 : list Page) :
  let output_path :=
    os.path_join OUTPUT_FOLDER (form_get req "output_name" "merged.pdf") in
  multi_getlist "files" (request_files req) = [first; second] ->
  valid_upload first = true ->
  valid_upload second = true ->
  stream first = Pdf pages1 ->
  stream second = Pdf pages2 ->
  secure_filename (filename first) = secure_filename (filename second) ->
  plain_upload secure_filename second ->
  plain_name (form_get req "output_name" "merged.pdf") ->
  writable w (stage_path secure_filename second) = true ->
  writable w output_path = true ->
  exists w',
    merge_pdfs_route secure_filename req w
    = (Ok (SuccessFile "Successfully merged 2 PDF files"
                       (os.path_basename output_path), 200%nat), w') /\
    files w' !! output_path = Some (Pdf (pages2 ++ pages2)).
Proof.
  intros output_path Hups Hv1 Hv2 Hs1 Hs2 Hsame Habs _ Hwr Hout.
  assert (stage_path secure_filename first = stage_path secure_filename second) as Hpath
    by (unfold stage_path; by rewrite Hsame).
  rewrite merge_pdfs_route_unfold. unfold route, try_except.
  rewrite multi_get_getlist, Hups.
  change (head [first; second]) with (Some first). cbv zeta.
  change (length [first; second] <? 2)%nat with false.
  unfold bind. cbv beta iota. rewrite merge_stage_loop.
  2:{ intros f [->|[->|[]%elem_of_nil]%elem_of_cons]%elem_of_cons _;
        [by rewrite Hpath | done]. }
  assert (List.filter valid_upload [first; second] = [first; second]) as ->
    by (simpl; by rewrite Hv1, Hv2).
  cbn [fmap list_fmap app stage_all foldl length Nat.ltb Nat.leb].
  rewrite Hpath, Hs1, Hs2.
  set (p := stage_path secure_filename second).
  set (w1 := set_files w (<[p := Pdf pages2]> (<[p := Pdf pages1]> (files w)))).
  assert (files w1 !! p = Some (Pdf pages2)) as Hp by apply lookup_insert_eq.
  assert (Forall (readable w1) [p; p]) as Hread
    by (repeat constructor; unfold readable; by rewrite Hp).
  rewrite merge_pdfs_run, (merge_read_loop_ok _ [] w1 Hread). simpl.
  fold output_path. rewrite Hout. unfold pages_at. rewrite Hp. simpl. rewrite app_nil_r.
  eexists. split; [reflexivity|]. simpl.
  assert (output_path <> p) as Hne.
  { intros Heq. symmetry in Heq.
    by apply (staged_not_output p (form_get req "output_name" "merged.pdf")
                (saved_staged _ (stage_path_saved secure_filename second Habs))). }
  rewrite !lookup_delete_ne, lookup_insert_eq by done. reflexivity.
Qed.

Lemma merge_route_same_name_merges_last_upload_twice_witness :
  exists w',
    merge_pdfs_route (fun name => name) same_name_request small_world
    = (Ok (SuccessFile "Successfully merged 2 PDF files"
                       (os.path_basename (os.path_join OUTPUT_FOLDER "merged.pdf")),
           200%nat), w') /\
    files w' !! os.path_join OUTPUT_FOLDER "merged.pdf"
      = Some (Pdf ([plain "x"] ++ [plain "x"])).
Proof.
  apply (merge_route_same_name_merges_last_upload_twice (fun name => name)
           same_name_request small_world
           (mkFileStorage "cv.pdf" (Pdf three_pages))
           (mkFileStorage "cv.pdf" (Pdf [plain "x"])) three_pages [plain "x"]);
    try reflexivity; repeat split; (reflexivity || discriminate).
Defined.




(** ** Edge cases of the operations *)

(** X6. A page count of zero makes [split_pdf] raise [ValueError] with
    nothing changed; a negative page count makes it succeed with no
    artifact at all while the staged input is deleted all the same. *)
Theorem split_with_nonpositive_count (w : World) (p : string) (pages : list Page) :
  files w !! p = Some (Pdf pages) ->
  PDFProcessor.split_pdf p 0 w = (Raise ValueError, w) /\
  forall k, (k < 0)%Z ->
    PDFProcessor.split_pdf p k w = (Ok [], set_files w (delete p (files w))).
Proof.
  intros Hp. split; [by apply (split_pdf_zero w p pages)|].
  intros k Hk. by apply (split_pdf_negative w p pages).
Qed.

Lemma split_with_nonpositive_count_witness :
  PDFProcessor.split_pdf "uploads/a.pdf" 0 small_world = (Raise ValueError, small_world) /\
  forall k, (k < 0)%Z ->
    PDFProcessor.split_pdf "uploads/a.pdf" k small_world
    = (Ok [], set_files small_world (delete "uploads/a.pdf" (files small_world))).
Proof.
  apply (split_with_nonpositive_count small_world "uploads/a.pdf" three_pages).
  reflexivity.
Defined.

(** X7. A split that fails half way is not rolled back.  When [split_pdf]
    raises on a staged PDF with a positive page count, the error is
    [OSError] from a chunk that could not be written; every chunk before it
    is on disk with its pages, and the staged input is still there. *)
Theorem split_failure_keeps_written_chunks
    (w w' : World) (p : string) (pages : list Page) (k : nat) (e : Exn) :
  files w !! p = Some (Pdf pages) ->
  staged p ->
  (1 <= k)%nat ->
  PDFProcessor.split_pdf p (Z.of_nat k) w = (Raise e, w') ->
  e = OSError /\
  exists j,
    (j < ceil_div (length pages) k)%nat /\
    writable w (chunk_path w (length pages) k j) = false /\
    (forall i, (i < j)%nat ->
       files w' !! chunk_path w (length pages) k i = Some (Pdf (take k (drop (i * k) pages)))) /\
    files w' !! p = Some (Pdf pages).
Proof.
  intros Hp Hst Hk Hrun.
  destruct (split_pdf_outcome w p pages k Hp ltac:(lia))
    as (j & r & w0 & Hrun' & Hcases).
  rewrite Hrun in Hrun'. injection Hrun' as <- <-.
  destruct Hcases as [(Hr & _)|(Hr & Hj & Hbad & Hfiles)]; [discriminate|].
  injection Hr as ->. split; [reflexivity|]. exists j.
  split; [exact Hj|]. split; [exact Hbad|]. split.
  - intros i Hi. rewrite Hfiles. apply lookup_write_chunks; [lia|].
    apply elem_of_seq. lia.
  - rewrite Hfiles, lookup_write_chunks_other; [exact Hp|].
    intros i _. by apply chunk_path_not_staged.
Qed.

Lemma split_failure_keeps_written_chunks_witness :
  OSError = OSError /\
  exists j,
    (j < ceil_div (length three_pages) 2)%nat /\
    writable second_chunk_blocked
      (chunk_path second_chunk_blocked (length three_pages) 2 j) = false /\
    (forall i, (i < j)%nat ->
       files (snd (PDFProcessor.split_pdf "uploads/a.pdf" 2 second_chunk_blocked))
         !! chunk_path second_chunk_blocked (length three_pages) 2 i
       = Some (Pdf (take 2 (drop (i * 2) three_pages)))) /\
    files (snd (PDFProcessor.split_pdf "uploads/a.pdf" 2 second_chunk_blocked))
      !! "uploads/a.pdf" = Some (Pdf three_pages).
Proof.
  apply (split_failure_keeps_written_chunks second_chunk_blocked
           (snd (PDFProcessor.split_pdf "uploads/a.pdf" 2 second_chunk_blocked))
           "uploads/a.pdf" three_pages 2 OSError).
  - reflexivity.
  - exists "a.pdf". reflexivity.
  - lia.
  - vm_compute. reflexivity.
Defined.

(** X8. On a document with at least one page [rotate_pdf] succeeds exactly
    for the angles that are multiples of 90, negative ones, 0 and full turns
    included; for any other angle it raises [ValueError] and changes
    nothing.  (The output path is taken to be writable.) *)
Theorem rotate_accepts_exactly_multiples_of_90
    (w : World) (p out : string) (pages : list Page) (angle : Z) :
  files w !! p = Some (Pdf pages) ->
  pages <> [] ->
  writable w (os.path_join OUTPUT_FOLDER out) = true ->
  ((angle mod 90 = 0)%Z ->
     exists w', PDFProcessor.rotate_pdf p angle out w
                = (Ok (os.path_join OUTPUT_FOLDER out), w')) /\
  ((angle mod 90 <> 0)%Z ->
     PDFProcessor.rotate_pdf p angle out w = (Raise ValueError, w)).
Proof.
  intros Hp Hne Hwr. rewrite rotate_pdf_run, Hp. split; intros Hangle.
  - rewrite decide_True by (by right). simpl. rewrite Hwr. eauto.
  - rewrite decide_False by tauto. reflexivity.
Qed.

Lemma rotate_accepts_exactly_multiples_of_90_witness :
  ((45 mod 90 = 0)%Z ->
     exists w', PDFProcessor.rotate_pdf "uploads/a.pdf" 45 "r.pdf" small_world
                = (Ok (os.path_join OUTPUT_FOLDER "r.pdf"), w')) /\
  ((45 mod 90 <> 0)%Z ->
     PDFProcessor.rotate_pdf "uploads/a.pdf" 45 "r.pdf" small_world
     = (Raise ValueError, small_world)).
Proof.
  apply (rotate_accepts_exactly_multiples_of_90 small_world "uploads/a.pdf" "r.pdf"
           three_pages 45).
  - reflexivity.
  - discriminate.
  - reflexivity.
Defined.

(** X9. A saved document without pages is rotated by any angle
    whatsoever: the loop that would reject the angle never runs, and an
    empty PDF is written under the plain output name. *)
Theorem rotate_empty_document_takes_any_angle
    (w : World) (p out : string) (angle : Z) :
  files w !! p = Some (Pdf []) ->
  saved p ->
  plain_name out ->
  writable w (os.path_join OUTPUT_FOLDER out) = true ->
  exists w',
    PDFProcessor.rotate_pdf p angle out w = (Ok (os.path_join OUTPUT_FOLDER out), w') /\
    files w' !! os.path_join OUTPUT_FOLDER out = Some (Pdf []) /\
    files w' !! p = None.
Proof.
  intros Hp Hst%saved_staged _ Hwr. rewrite rotate_pdf_run, Hp.
  rewrite decide_True by (by left). simpl. rewrite Hwr.
  eexists. split; [reflexivity|]. simpl. split.
  - rewrite lookup_delete_ne, lookup_insert_eq; [done|]. by apply staged_not_output.
  - apply lookup_delete_eq.
Qed.

Lemma rotate_empty_document_takes_any_angle_witness :
  exists w',
    PDFProcessor.rotate_pdf "uploads/empty.pdf" 45 "r.pdf" empty_world
    = (Ok (os.path_join OUTPUT_FOLDER "r.pdf"), w') /\
    files w' !! os.path_join OUTPUT_FOLDER "r.pdf" = Some (Pdf []) /\
    files w' !! "uploads/empty.pdf" = None.
Proof.
  apply (rotate_empty_document_takes_any_angle empty_world "uploads/empty.pdf" "r.pdf" 45).
  - reflexivity.
  - exists "empty.pdf". repeat split; (reflexivity || discriminate).
  - repeat split; (reflexivity || discriminate).
  - reflexivity.
Defined.

(** ** What the operations do to the pages *)

(** X10. [rotate_pdf] keeps the pages and adds to their [/Rotate]
    entries: for a saved PDF and a plain output name the artifact has as
    many pages as the input, and the [/Rotate] entry of each is the old one
    plus the angle, page by page in the order of the input and without
    reduction modulo 360. *)
Theorem rotate_changes_only_the_rotation
    (w : World) (p out : string) (pages : list Page) (angle : Z) :
  files w !! p = Some (Pdf pages) ->
  saved p ->
  plain_name out ->
  (angle mod 90 = 0)%Z ->
  writable w (os.path_join OUTPUT_FOLDER out) = true ->
  exists w' pages',
    PDFProcessor.rotate_pdf p angle out w = (Ok (os.path_join OUTPUT_FOLDER out), w') /\
    files w' !! os.path_join OUTPUT_FOLDER out = Some (Pdf pages') /\
    length pages' = length pages /\
    page_rotation <$> pages' = (fun pg => page_rotation pg + angle)%Z <$> pages.
Proof.
  intros Hp Hst%saved_staged _ Hangle Hwr.
  destruct (rotate_pdf_staged_ok w p pages angle out Hp Hst Hangle Hwr)
    as (w' & Hrun & Hout & _).
  exists w', (rotated angle <$> pages). split; [exact Hrun|]. split; [exact Hout|].
  rewrite length_fmap, <- !list_fmap_compose. done.
Qed.

Lemma rotate_changes_only_the_rotation_witness :
  exists w' pages',
    PDFProcessor.rotate_pdf "uploads/a.pdf" 450 "r.pdf" small_world
      = (Ok (os.path_join OUTPUT_FOLDER "r.pdf"), w') /\
    files w' !! os.path_join OUTPUT_FOLDER "r.pdf" = Some (Pdf pages') /\
    length pages' = length three_pages /\
    page_rotation <$> pages' = (fun pg => page_rotation pg + 450)%Z <$> three_pages.
Proof.
  apply (rotate_changes_only_the_rotation small_world "uploads/a.pdf" "r.pdf"
           three_pages 450).
  - reflexivity.
  - exists "a.pdf". repeat split; (reflexivity || discriminate).
  - repeat split; (reflexivity || discriminate).
  - reflexivity.
  - reflexivity.
Defined.

(** X11. Rotations add up.  Rotating a saved PDF by [a], saving the
    artifact in the staging area again and rotating it by [b] writes the
    same pages as one rotation by [a + b]; a rotation by [-a] afterwards
    therefore restores the original pages.  The output names are plain. *)
Theorem rotations_compose_by_adding_angles
    (w v : World) (p q out1 out2 : string) (pages : list Page) (a b : Z) :
  files w !! p = Some (Pdf pages) ->
  saved p ->
  plain_name out1 ->
  plain_name out2 ->
  (a mod 90 = 0)%Z ->
  (b mod 90 = 0)%Z ->
  writable w (os.path_join OUTPUT_FOLDER out1) = true ->
  saved q ->
  files v !! q = files (snd (PDFProcessor.rotate_pdf p a out1 w))
                   !! os.path_join OUTPUT_FOLDER out1 ->
  writable v (os.path_join OUTPUT_FOLDER out2) = true ->
  exists v',
    PDFProcessor.rotate_pdf q b out2 v = (Ok (os.path_join OUTPUT_FOLDER out2), v') /\
    files v' !! os.path_join OUTPUT_FOLDER out2 = Some (Pdf (rotated (a + b) <$> pages)) /\
    (b = (- a)%Z -> files v' !! os.path_join OUTPUT_FOLDER out2 = Some (Pdf pages)).
Proof.
  intros Hp Hst%saved_staged _ _ Ha Hb Hw1 Hstq%saved_staged Hq Hw2.
  destruct (rotate_pdf_staged_ok w p pages a out1 Hp Hst Ha Hw1) as (w1 & Hr1 & Hf1 & _).
  rewrite Hr1 in Hq. simpl in Hq. rewrite Hf1 in Hq.
  destruct (rotate_pdf_staged_ok v q _ b out2 Hq Hstq Hb Hw2) as (v' & Hr2 & Hf2 & _).
  rewrite rotated_twice in Hf2.
  exists v'. split; [exact Hr2|]. split; [exact Hf2|].
  intros ->. rewrite Hf2. do 2 f_equal.
  rewrite <- (list_fmap_id pages) at 2. apply list_fmap_ext.
  intros _ [t r o] _. unfold rotated. simpl. f_equal. lia.
Qed.

Lemma rotations_compose_by_adding_angles_witness :
  exists v',
    PDFProcessor.rotate_pdf "uploads/a.pdf" (-270) "back.pdf"
      (set_files small_world
         {[ "uploads/a.pdf" := Pdf (rotated 270 <$> three_pages) ]})
    = (Ok (os.path_join OUTPUT_FOLDER "back.pdf"), v') /\
    files v' !! os.path_join OUTPUT_FOLDER "back.pdf"
      = Some (Pdf (rotated (270 + -270) <$> three_pages)) /\
    ((-270)%Z = (- 270)%Z ->
     files v' !! os.path_join OUTPUT_FOLDER "back.pdf" = Some (Pdf three_pages)).
Proof.
  apply (rotations_compose_by_adding_angles small_world
           (set_files small_world {[ "uploads/a.pdf" := Pdf (rotated 270 <$> three_pages) ]})
           "uploads/a.pdf" "uploads/a.pdf" "turned.pdf" "back.pdf" three_pages 270 (-270)).
  - reflexivity.
  - exists "a.pdf". repeat split; (reflexivity || discriminate).
  - repeat split; (reflexivity || discriminate).
  - repeat split; (reflexivity || discriminate).
  - reflexivity.
  - reflexivity.
  - reflexivity.
  - exists "a.pdf". repeat split; (reflexivity || discriminate).
  - vm_compute. reflexivity.
  - reflexivity.
Defined.

Section Case.

Lemma upper_char_idempotent c : PyStr.upper_char (PyStr.upper_char c) = PyStr.upper_char c.
Proof.
  unfold PyStr.upper_char. destruct (PyStr.is_lower c) eqn:Hc; [|by rewrite Hc].
  unfold PyStr.is_lower in *. apply andb_true_iff in Hc as [H1 H2].
  apply Nat.leb_le in H1, H2.
  rewrite nat_ascii_embedding by lia.
  rewrite (proj2 (Nat.leb_gt 97 (nat_of_ascii c - 32))) by lia. reflexivity.
Qed.

Lemma upper_idempotent s : PyStr.upper (PyStr.upper s) = PyStr.upper s.
Proof.
  unfold PyStr.upper. induction s as [|c s IH]; simpl; [reflexivity|].
  by rewrite upper_char_idempotent, IH.
Qed.

End Case.

(** X12. [add_watermark] lays one more overlay on every page, the label in
    upper case, after the overlays already there, and touches neither the
    rotation nor the number or order of the pages; the staged input is
    removed.  The case of the letters in the label given makes no
    difference.  The label is ASCII text, the input a saved PDF and the
    output name plain. *)
Theorem watermark_overlays_uppercased_label
    (w : World) (p text out : string) (pages : list Page) :
  files w !! p = Some (Pdf pages) ->
  saved p ->
  plain_name out ->
  is_ascii text = true ->
  writable w (os.path_join OUTPUT_FOLDER out) = true ->
  (exists w' pages',
     PDFProcessor.add_watermark p text out w = (Ok (os.path_join OUTPUT_FOLDER out), w') /\
     files w' !! os.path_join OUTPUT_FOLDER out = Some (Pdf pages') /\
     files w' !! p = None /\
     length pages' = length pages /\
     page_rotation <$> pages' = page_rotation <$> pages /\
     page_overlays <$> pages'
       = (fun pg => page_overlays pg ++ [PyStr.upper text]) <$> pages) /\
  PDFProcessor.add_watermark p (PyStr.upper text) out w
    = PDFProcessor.add_watermark p text out w.
Proof.
  intros Hp Hst%saved_staged _ _ Hwr. split.
  - rewrite add_watermark_run, Hp. simpl. rewrite Hwr.
    eexists _, _. split; [reflexivity|]. simpl. split; [|split].
    + rewrite lookup_delete_ne, lookup_insert_eq; [done|]. by apply staged_not_output.
    + apply lookup_delete_eq.
    + rewrite length_fmap, <- !list_fmap_compose. done.
  - rewrite !add_watermark_run, upper_idempotent. reflexivity.
Qed.

Lemma watermark_overlays_uppercased_label_witness :
  (exists w' pages',
     PDFProcessor.add_watermark "uploads/a.pdf" "Draft" "m.pdf" small_world
       = (Ok (os.path_join OUTPUT_FOLDER "m.pdf"), w') /\
     files w' !! os.path_join OUTPUT_FOLDER "m.pdf" = Some (Pdf pages') /\
     files w' !! "uploads/a.pdf" = None /\
     length pages' = length three_pages /\
     page_rotation <$> pages' = page_rotation <$> three_pages /\
     page_overlays <$> pages'
       = (fun pg => page_overlays pg ++ [PyStr.upper "Draft"]) <$> three_pages) /\
  PDFProcessor.add_watermark "uploads/a.pdf" (PyStr.upper "Draft") "m.pdf" small_world
    = PDFProcessor.add_watermark "uploads/a.pdf" "Draft" "m.pdf" small_world.
Proof.
  apply (watermark_overlays_uppercased_label small_world "uploads/a.pdf" "Draft" "m.pdf"
           three_pages).
  - reflexivity.
  - exists "a.pdf". repeat split; (reflexivity || discriminate).
  - repeat split; (reflexivity || discriminate).
  - reflexivity.
  - reflexivity.
Defined.

(** ** Text extraction, once more *)

Section Prefixes.

Lemma length_append a b : String.length (a +:+ b) = (String.length a + String.length b)%nat.
Proof.
  induction a as [|c a IH]; [reflexivity|].
  change (S (String.length (a +:+ b)) = S (String.length a + String.length b)).
  by rewrite IH.
Qed.

Lemma length_take n s : String.length (PyStr.take n s) = min n (String.length s).
Proof.
  revert s. induction n as [|n IH]; intros [|c s]; try reflexivity.
  change (S (String.length (PyStr.take n s)) = S (min n (String.length s))).
  by rewrite IH.
Qed.

Lemma take_append n a b : String.length a = n -> PyStr.take n (a +:+ b) = a.
Proof.
  revert a. induction n as [|n IH]; intros [|c a] Hlen; try discriminate.
  - by destruct b.
  - change (String c (PyStr.take n (a +:+ b)) = String c a). rewrite IH; [done|].
    by injection Hlen.
Qed.

End Prefixes.

(** X13. The preview [extract_text] returns is never longer than 1003
    characters and agrees with the extracted text on the first 1000
    characters.  A document without pages is extracted to an empty text
    file with an empty preview. *)
Theorem extract_preview_is_a_bounded_prefix
    (w : World) (p : string) (pages : list Page) :
  files w !! p = Some (Pdf pages) ->
  staged p ->
  writable w (extract_output_path w) = true ->
  exists preview w',
    PDFProcessor.extract_text p w = (Ok (extract_output_path w, preview), w') /\
    (String.length preview <= 1003)%nat /\
    PyStr.take 1000 preview = PyStr.take 1000 (full_text pages) /\
    (pages = [] ->
     preview = "" /\ files w' !! extract_output_path w = Some (Text "")).
Proof.
  intros Hp Hst Hwr. rewrite extract_text_run, Hp. cbv zeta. rewrite Hwr.
  eexists _, _. split; [reflexivity|].
  unfold preview_of. destruct (Nat.ltb_spec 1000 (String.length (full_text pages))) as [Hlong|Hshort].
  - split; [|split].
    + rewrite length_append, length_take.
      change (String.length "...") with 3%nat. lia.
    + apply take_append. rewrite length_take. lia.
    + intros ->. exfalso. change (String.length (full_text [])) with 0%nat in Hlong. lia.
  - split; [lia|]. split; [reflexivity|].
    intros ->. split; [reflexivity|]. simpl files.
    rewrite lookup_delete_ne, lookup_insert_eq; [done|]. by apply staged_not_output.
Qed.

Lemma extract_preview_is_a_bounded_prefix_witness :
  exists preview w',
    PDFProcessor.extract_text "uploads/long.pdf" long_world
      = (Ok (extract_output_path long_world, preview), w') /\
    (String.length preview <= 1003)%nat /\
    PyStr.take 1000 preview = PyStr.take 1000 (full_text long_pages) /\
    (long_pages = [] ->
     preview = "" /\ files w' !! extract_output_path long_world = Some (Text "")).
Proof.
  apply (extract_preview_is_a_bounded_prefix long_world "uploads/long.pdf" long_pages).
  - reflexivity.
  - exists "long.pdf". reflexivity.
  - reflexivity.
Defined.

(** ** What an operation leaves alone *)

Lemma outside_not_chunk_path w n k i q : outside_outputs q -> chunk_path w n k i <> q.
Proof. intros Hq Heq. by apply (Hq (stamped (chunk_base n k i) (clock w (ticks w + i)) ".pdf")). Qed.

Lemma split_pdf_frame w p k r w' q :
  q <> p -> outside_outputs q ->
  PDFProcessor.split_pdf p k w = (r, w') ->
  files w' !! q = files w !! q.
Proof.
  intros Hqp Hq. destruct (files w !! p) as [[pages|?|?]|] eqn:Hp.
  2-4: rewrite split_pdf_not_pdf by (by rewrite Hp); by intros [= <- <-].
  destruct (Z.lt_trichotomy k 0) as [Hneg|[->|Hpos]].
  - rewrite (split_pdf_negative w p pages k Hp Hneg).
    intros [= <- <-]. simpl. by rewrite lookup_delete_ne.
  - rewrite (split_pdf_zero w p pages Hp). by intros [= <- <-].
  - rewrite <- (Z2Nat.id k) by lia.
    destruct (split_pdf_outcome w p pages (Z.to_nat k) Hp ltac:(lia))
      as (j & r0 & w0 & Hrun & Hcases).
    rewrite Hrun. intros [= <- <-].
    destruct Hcases as [(-> & _ & ->)|(-> & _ & _ & ->)];
      rewrite ?lookup_delete_ne by done;
      (rewrite lookup_write_chunks_other; [done|]);
      intros i _; by apply outside_not_chunk_path.
Qed.

Lemma staged_outside_outputs q : staged q -> outside_outputs q.
Proof. intros Hq name. by apply staged_not_output. Qed.

(** X14. An operation leaves the staged files of other requests alone.
    Whether the transformation succeeds or raises, a saved upload that is
    not one of its inputs holds afterwards exactly what it held before.
    The inputs are saved uploads and the output name, where the caller
    gives one, is plain. *)
Theorem operation_leaves_other_uploads_alone
    (op : Operation) (w w' : World) (r : Result (list string)) (q : string) :
  transform op w = (r, w') ->
  Forall saved (inputs op) ->
  plain_output op ->
  saved q ->
  q ∉ inputs op ->
  files w' !! q = files w !! q.
Proof.
  intros Hrun _ _ Hq%saved_staged%staged_outside_outputs Hin.
  destruct op as [paths out|p text out|p|p k|p angle out]; simpl in Hin, Hrun.
  - unfold bind in Hrun. rewrite merge_pdfs_run in Hrun.
    destruct (fst (for_each paths merge_read [] w)) as [merger|e].
    + simpl in Hrun. destruct (writable w (os.path_join OUTPUT_FOLDER out)).
      * injection Hrun as <- <-. simpl.
        rewrite lookup_remove_all, decide_False, lookup_insert_ne; [done| |done].
        intros Heq. by apply (Hq out).
      * by injection Hrun as <- <-.
    + by injection Hrun as <- <-.
  - apply not_elem_of_cons in Hin as [Hqp _].
    unfold bind in Hrun. rewrite add_watermark_run in Hrun.
    destruct (files w !! p) as [[pages|?|?]|] eqn:Hp;
      try (simpl in Hrun; by injection Hrun as <- <-).
    simpl in Hrun. destruct (writable w (os.path_join OUTPUT_FOLDER out)).
    + injection Hrun as <- <-. simpl.
      rewrite lookup_delete_ne, lookup_insert_ne; [done| |done].
      intros Heq. by apply (Hq out).
    + by injection Hrun as <- <-.
  - apply not_elem_of_cons in Hin as [Hqp _].
    unfold bind in Hrun. rewrite extract_text_run in Hrun.
    destruct (files w !! p) as [[pages|?|?]|] eqn:Hp;
      try (simpl in Hrun; by injection Hrun as <- <-).
    simpl in Hrun. destruct (writable w (extract_output_path w)).
    + injection Hrun as <- <-. simpl.
      rewrite lookup_delete_ne, lookup_insert_ne; [done| |done].
      intros Heq. by apply (Hq (stamped "extracted_text" (clock w (ticks w)) ".txt")).
    + by injection Hrun as <- <-.
  - apply not_elem_of_cons in Hin as [Hqp _].
    by apply (split_pdf_frame w p k r w' q).
  - apply not_elem_of_cons in Hin as [Hqp _].
    unfold bind in Hrun. rewrite rotate_pdf_run in Hrun.
    destruct (files w !! p) as [[pages|?|?]|] eqn:Hp;
      try (simpl in Hrun; by injection Hrun as <- <-).
    destruct (decide (pages = [] \/ (angle mod 90 = 0)%Z));
      [|simpl in Hrun; by injection Hrun as <- <-].
    simpl in Hrun. destruct (writable w (os.path_join OUTPUT_FOLDER out)).
    + injection Hrun as <- <-. simpl.
      rewrite lookup_delete_ne, lookup_insert_ne; [done| |done].
      intros Heq. by apply (Hq out).
    + by injection Hrun as <- <-.
Qed.

Lemma operation_leaves_other_uploads_alone_witness :
  files (snd (transform (Split "uploads/a.pdf" 2) small_world)) !! "uploads/b.pdf"
  = files small_world !! "uploads/b.pdf".
Proof.
  apply (operation_leaves_other_uploads_alone (Split "uploads/a.pdf" 2) small_world
           (snd (transform (Split "uploads/a.pdf" 2) small_world))
           (fst (transform (Split "uploads/a.pdf" 2) small_world)) "uploads/b.pdf").
  - by destruct (transform (Split "uploads/a.pdf" 2) small_world).
  - constructor; [|constructor]. exists "a.pdf". repeat split; (reflexivity || discriminate).
  - exact I.
  - exists "b.pdf". repeat split; (reflexivity || discriminate).
  - simpl. intros [H|H]%elem_of_cons; [discriminate | by apply not_elem_of_nil in H].
Defined.

(** X15. An output name that starts with a slash is not kept inside the
    output folder: [os.path.join] returns the name itself, and watermark,
    rotate and merge report that very path as their artifact when it can be
    written. *)
Theorem absolute_output_name_leaves_output_folder
    (w : World) (p text name : string) (pages : list Page) :
  files w !! p = Some (Pdf pages) ->
  PyStr.startswith "/" name = true ->
  writable w name = true ->
  os.path_join OUTPUT_FOLDER name = name /\
  fst (PDFProcessor.add_watermark p text name w) = Ok name /\
  fst (PDFProcessor.rotate_pdf p 90 name w) = Ok name /\
  fst (PDFProcessor.merge_pdfs [p] name w) = Ok name.
Proof.
  intros Hp Habs Hwr.
  assert (os.path_join OUTPUT_FOLDER name = name) as Hjoin
    by (unfold os.path_join; by rewrite Habs).
  split; [exact Hjoin|]. split; [|split].
  - rewrite add_watermark_run, Hp, Hjoin. simpl. by rewrite Hwr.
  - rewrite rotate_pdf_run, Hp, Hjoin. rewrite decide_True by (by right).
    simpl. by rewrite Hwr.
  - rewrite merge_pdfs_run, Hjoin.
    assert (Forall (readable w) [p]) as Hread
      by (repeat constructor; unfold readable; by rewrite Hp).
    rewrite (merge_read_loop_ok [p] [] w Hread). simpl. by rewrite Hwr.
Qed.

Lemma absolute_output_name_leaves_output_folder_witness :
  os.path_join OUTPUT_FOLDER "/srv/index.pdf" = "/srv/index.pdf" /\
  fst (PDFProcessor.add_watermark "uploads/a.pdf" "x" "/srv/index.pdf" small_world)
    = Ok "/srv/index.pdf" /\
  fst (PDFProcessor.rotate_pdf "uploads/a.pdf" 90 "/srv/index.pdf" small_world)
    = Ok "/srv/index.pdf" /\
  fst (PDFProcessor.merge_pdfs ["uploads/a.pdf"] "/srv/index.pdf" small_world)
    = Ok "/srv/index.pdf".
Proof.
  apply (absolute_output_name_leaves_output_folder small_world "uploads/a.pdf" "x"
           "/srv/index.pdf" three_pages).
  - reflexivity.
  - reflexivity.
  - reflexivity.
Defined.

(** ** The cover letter route *)

Section Blank.

Lemma lstrip_blank s : blank s = true -> PyInt.lstrip s = "".
Proof.
  induction s as [|c s IH]; [reflexivity|]. simpl.
  intros [Hc Hs]%andb_true_iff. rewrite Hc. by apply IH.
Qed.

Lemma strip_blank s : blank s = true -> PyInt.strip s = "".
Proof. intros H. unfold PyInt.strip. by rewrite (lstrip_blank s H). Qed.

End Blank.

Lemma create_cover_letter_route_run data w :
  create_cover_letter_route data w =
  route (
    if negb (all_truthy [PyInt.strip (field data "name");
                         PyInt.strip (field data "position");
                         PyInt.strip (field data "company")])
    then ret (ErrorMessage "Name, position, and company are required", 400%nat)
    else
      output_path <- PDFProcessor.create_cover_letter
                       (PyInt.strip (field data "name"))
                       (PyInt.strip (field data "position"))
                       (PyInt.strip (field data "company"))
                       (PyInt.strip (field data "email"))
                       (PyInt.strip (field data "phone"))
                       (match multi_get "output_name" data with
                        | Some value => value
                        | None => "cover_letter.pdf"
                        end) ;;
      ret (SuccessFile "Cover letter created successfully"
                       (os.path_basename output_path), 200%nat)) w.
Proof. reflexivity. Qed.

(** X16. The cover letter route wants a name, a position and a company.
    When one of the three fields is missing, empty or made of white space
    only, the route answers 400 and writes nothing: the world is as it
    was. *)
Theorem cover_letter_route_requires_three_fields
    (data : list (string * string)) (w : World) :
  blank (field data "name") = true \/
  blank (field data "position") = true \/
  blank (field data "company") = true ->
  create_cover_letter_route data w
  = (Ok (ErrorMessage "Name, position, and company are required", 400%nat), w).
Proof.
  intros Hblank. rewrite create_cover_letter_route_run.
  assert (all_truthy [PyInt.strip (field data "name");
                      PyInt.strip (field data "position");
                      PyInt.strip (field data "company")] = false) as ->; [|reflexivity].
  unfold all_truthy. cbn [forallb].
  destruct Hblank as [H|[H|H]]; rewrite (strip_blank _ H); cbn [PyStr.truthy];
    rewrite ?andb_false_r; reflexivity.
Qed.

Lemma cover_letter_route_requires_three_fields_witness :
  create_cover_letter_route letter_without_company small_world
  = (Ok (ErrorMessage "Name, position, and company are required", 400%nat), small_world).
Proof.
  apply (cover_letter_route_requires_three_fields letter_without_company small_world).
  right. right. reflexivity.
Defined.

(** ** The download route *)

Lemma download_file_run send_file name w :
  download_file send_file name w =
  match files w !! os.path_join OUTPUT_FOLDER name with
  | Some _ =>
      try_except (send_file (os.path_join OUTPUT_FOLDER name))
                 (fun e => ret (Reply (ErrorException e, 500%nat))) w
  | None => (Ok (Reply (ErrorMessage "File not found", 404%nat)), w)
  end.
Proof.
  unfold download_file, try_except, bind, os.path_exists.
  destruct (files w !! os.path_join OUTPUT_FOLDER name) eqn:Hf; reflexivity.
Qed.

(** X17. The download route looks for the plain name it is given in the
    output folder and nowhere else.  When there is no such file it answers
    404 and changes nothing; when there is one it hands the path
    [outputs/name] to [send_file], whose answer it returns, and an
    exception of [send_file] becomes a 500 response. *)
Theorem download_looks_in_the_output_folder
    (send_file : string -> M Download) (name : string) (w : World) :
  plain_name name ->
  (files w !! (OUTPUT_FOLDER +:+ "/" +:+ name) = None ->
   download_file send_file name w
   = (Ok (Reply (ErrorMessage "File not found", 404%nat)), w)) /\
  (is_Some (files w !! (OUTPUT_FOLDER +:+ "/" +:+ name)) ->
   (forall answer w',
      send_file (OUTPUT_FOLDER +:+ "/" +:+ name) w = (Ok answer, w') ->
      download_file send_file name w = (Ok answer, w')) /\
   (forall e w',
      send_file (OUTPUT_FOLDER +:+ "/" +:+ name) w = (Raise e, w') ->
      download_file send_file name w = (Ok (Reply (ErrorException e, 500%nat)), w'))).
Proof.
  intros Hname. rewrite download_file_run, path_join_output.
  rewrite (plain_name_not_absolute name Hname).
  change ("outputs/" +:+ name) with (OUTPUT_FOLDER +:+ "/" +:+ name).
  split.
  - by intros ->.
  - intros [content ->]. unfold try_except.
    split; intros ? w' ->; reflexivity.
Qed.

Lemma download_looks_in_the_output_folder_witness :
  (files small_world !! (OUTPUT_FOLDER +:+ "/" +:+ "merged.pdf") = None ->
   download_file serve "merged.pdf" small_world
   = (Ok (Reply (ErrorMessage "File not found", 404%nat)), small_world)) /\
  (is_Some (files small_world !! (OUTPUT_FOLDER +:+ "/" +:+ "merged.pdf")) ->
   (forall answer w',
      serve (OUTPUT_FOLDER +:+ "/" +:+ "merged.pdf") small_world = (Ok answer, w') ->
      download_file serve "merged.pdf" small_world = (Ok answer, w')) /\
   (forall e w',
      serve (OUTPUT_FOLDER +:+ "/" +:+ "merged.pdf") small_world = (Raise e, w') ->
      download_file serve "merged.pdf" small_world
      = (Ok (Reply (ErrorException e, 500%nat)), w'))).
Proof.
  apply (download_looks_in_the_output_folder serve "merged.pdf" small_world).
  repeat split; (reflexivity || discriminate).
Defined.

(** ** The routes that take one file *)

(** X18. A request without a part named [file] is answered with 400 by the
    watermark, extract, split and rotate routes, before any form field is
    read: nothing is staged, whatever the form holds. *)
Theorem single_file_routes_need_a_file_part
    (secure_filename : string -> string) (py_int : string -> option Z)
    (req : Request) (w : World) :
  multi_get "file" (request_files req) = None ->
  add_watermark_route secure_filename req w
    = (Ok (ErrorMessage "No file provided", 400%nat), w) /\
  extract_text_route secure_filename req w
    = (Ok (ErrorMessage "No file provided", 400%nat), w) /\
  split_pdf_route secure_filename py_int req w
    = (Ok (ErrorMessage "No file provided", 400%nat), w) /\
  rotate_pdf_route secure_filename py_int req w
    = (Ok (ErrorMessage "No file provided", 400%nat), w).
Proof.
  intros Hfile.
  unfold add_watermark_route, extract_text_route, split_pdf_route, rotate_pdf_route,
    route, try_except.
  rewrite Hfile. repeat split; reflexivity.
Qed.

Lemma single_file_routes_need_a_file_part_witness :
  add_watermark_route (fun name => name) no_file_request small_world
    = (Ok (ErrorMessage "No file provided", 400%nat), small_world) /\
  extract_text_route (fun name => name) no_file_request small_world
    = (Ok (ErrorMessage "No file provided", 400%nat), small_world) /\
  split_pdf_route (fun name => name) PyInt.parse no_file_request small_world
    = (Ok (ErrorMessage "No file provided", 400%nat), small_world) /\
  rotate_pdf_route (fun name => name) PyInt.parse no_file_request small_world
    = (Ok (ErrorMessage "No file provided", 400%nat), small_world).
Proof.
  apply (single_file_routes_need_a_file_part (fun name => name) PyInt.parse
           no_file_request small_world).
  reflexivity.
Defined.

Lemma basename_join_output name :
  plain_name name -> os.path_basename (os.path_join OUTPUT_FOLDER name) = name.
Proof.
  intros Hname. rewrite path_join_output, (plain_name_not_absolute name Hname).
  destruct Hname as [Hslash _]. unfold os.path_basename.
  change ("outputs/" +:+ name) with ("outputs" +:+ String "/" name).
  by rewrite rsplit_last_app.
Qed.

(** X19. The watermark route from end to end.  For an upload with an
    allowed name that is a PDF, saved under a plain sanitised name, with a
    plain output name and an ASCII label (both from the form, or
    [watermarked.pdf] and [CONFIDENTIAL] when the form has none), the route
    answers 200 with the label as given in the message and the output name;
    the artifact carries the label in upper case on every page, and the
    upload is no longer in the staging area. *)
Theorem watermark_route_stamps_upload
    (secure_filename : string -> string) (req : Request) (w : World)
    (file : FileStorage) (pages : list Page) :
  let label := form_get req "watermark_text" "CONFIDENTIAL" in
  let out := form_get req "output_name" "watermarked.pdf" in
  multi_get "file" (request_files req) = Some file ->
  valid_upload file = true ->
  stream file = Pdf pages ->
  plain_upload secure_filename file ->
  plain_name out ->
  is_ascii label = true ->
  writable w (stage_path secure_filename file) = true ->
  writable w (os.path_join OUTPUT_FOLDER out) = true ->
  exists w',
    add_watermark_route secure_filename req w
    = (Ok (SuccessFile ("Watermark " +:+ PyStr.DQUOTE +:+ label +:+ PyStr.DQUOTE
                        +:+ " added successfully") out, 200%nat), w') /\
    files w' !! os.path_join OUTPUT_FOLDER out
      = Some (Pdf (PyPDF2.merge_page (PyStr.upper label) <$> pages)) /\
    files w' !! stage_path secure_filename file = None.
Proof.
  intros label out Hfile Hvalid Hpdf Hplain Hout _ Hwr_in Hwr_out.
  unfold add_watermark_route, route, try_except. rewrite Hfile, Hvalid.
  change (negb true) with false. unfold bind. cbv beta iota.
  rewrite stage_run, Hwr_in.
  fold label out. rewrite add_watermark_run. simpl files.
  rewrite lookup_insert_eq, Hpdf. cbv zeta. simpl writable. rewrite Hwr_out.
  rewrite (basename_join_output out Hout).
  eexists. split; [reflexivity|]. simpl files. split.
  - rewrite lookup_delete_ne, lookup_insert_eq; [done|].
    apply staged_not_output, saved_staged, stage_path_saved, Hplain.
  - apply lookup_delete_eq.
Qed.

Lemma watermark_route_stamps_upload_witness :
  exists w',
    add_watermark_route (fun name => name) stamp_request small_world
    = (Ok (SuccessFile ("Watermark " +:+ PyStr.DQUOTE +:+ "CONFIDENTIAL" +:+ PyStr.DQUOTE
                        +:+ " added successfully") "watermarked.pdf", 200%nat), w') /\
    files w' !! os.path_join OUTPUT_FOLDER "watermarked.pdf"
      = Some (Pdf (PyPDF2.merge_page (PyStr.upper "CONFIDENTIAL") <$> three_pages)) /\
    files w' !! stage_path (fun name => name) upload_c = None.
Proof.
  apply (watermark_route_stamps_upload (fun name => name) stamp_request small_world
           upload_c three_pages).
  - reflexivity.
  - reflexivity.
  - reflexivity.
  - repeat split; (reflexivity || discriminate).
  - repeat split; (reflexivity || discriminate).
  - reflexivity.
  - reflexivity.
  - reflexivity.
Defined.

Lemma chunk_of_one (pages : list Page) i pg :
  pages !! i = Some pg -> chunk pages 1 i = [pg].
Proof.
  intros Hi. unfold chunk. rewrite Nat.mul_1_r, (drop_S _ _ _ Hi). reflexivity.
Qed.

(** X20. The split route without a [pages_per_file] field cuts the upload
    into single pages.  For an upload with an allowed name that is a PDF of
    [n] pages, saved under a plain sanitised name, the route answers 200
    with [n] file names when the staging path and the paths of the parts
    can be written; the part numbered [i] holds page [i] alone, and the
    upload is no longer in the staging area.  [int] is not called. *)
Theorem split_route_defaults_to_single_pages
    (secure_filename : string -> string) (py_int : string -> option Z)
    (req : Request) (w : World) (file : FileStorage) (pages : list Page) :
  multi_get "file" (request_files req) = Some file ->
  multi_get "pages_per_file" (request_form req) = None ->
  valid_upload file = true ->
  stream file = Pdf pages ->
  plain_upload secure_filename file ->
  writable w (stage_path secure_filename file) = true ->
  (forall i, (i < length pages)%nat ->
             writable w (chunk_path w (length pages) 1 i) = true) ->
  exists w',
    split_pdf_route secure_filename py_int req w
    = (Ok (SuccessFiles ("PDF split into " +:+ PyStr.of_Z (Z.of_nat (length pages))
                         +:+ " files")
                        (os.path_basename
                           <$> (chunk_path w (length pages) 1 <$> seq 0 (length pages))),
           200%nat), w') /\
    (forall i pg, pages !! i = Some pg ->
       files w' !! chunk_path w (length pages) 1 i = Some (Pdf [pg])) /\
    files w' !! stage_path secure_filename file = None.
Proof.
  intros Hfile Hfield Hvalid Hpdf Hplain Hwr_in Hwr_out.
  unfold split_pdf_route, route, try_except. rewrite Hfile.
  unfold bind at 1. rewrite form_get_int_run, Hfield, Hvalid.
  change (negb true) with false. unfold bind. cbv beta iota.
  rewrite stage_run, Hwr_in.
  set (p := stage_path secure_filename file).
  set (w1 := set_files w (<[p := stream file]> (files w))).
  assert (files w1 !! p = Some (Pdf pages)) as Hp
    by (simpl; by rewrite lookup_insert_eq, Hpdf).
  destruct (split_pdf_outcome w1 p pages 1 Hp ltac:(lia))
    as (j & r & w' & Hrun & Hcases).
  change (Z.of_nat 1) with 1%Z in Hrun. rewrite Hrun.
  rewrite ceil_div_1 in Hcases.
  destruct Hcases as [(-> & -> & Hfiles)|(-> & Hlt & Hbad & _)];
    [|change (writable w (chunk_path w (length pages) 1 j) = false) in Hbad;
      rewrite Hwr_out in Hbad by done; discriminate].
  rewrite !length_fmap, length_seq.
  exists w'. split; [reflexivity|]. rewrite Hfiles. split.
  - intros i pg Hi.
    rewrite lookup_delete_ne.
    + rewrite <- (chunk_of_one pages i pg Hi).
      apply (lookup_write_chunks w1 pages 1); [lia|].
      apply elem_of_seq. apply lookup_lt_Some in Hi. lia.
    + intros Heq. symmetry in Heq.
      apply (chunk_path_not_staged w (length pages) 1 i p); [|exact Heq].
      apply saved_staged, stage_path_saved, Hplain.
  - apply lookup_delete_eq.
Qed.

Lemma split_route_defaults_to_single_pages_witness :
  exists w',
    split_pdf_route (fun name => name) PyInt.parse stamp_request small_world
    = (Ok (SuccessFiles ("PDF split into " +:+ PyStr.of_Z (Z.of_nat (length three_pages))
                         +:+ " files")
                        (os.path_basename
                           <$> (chunk_path small_world (length three_pages) 1
                                  <$> seq 0 (length three_pages))),
           200%nat), w') /\
    (forall i pg, three_pages !! i = Some pg ->
       files w' !! chunk_path small_world (length three_pages) 1 i = Some (Pdf [pg])) /\
    files w' !! stage_path (fun name => name) upload_c = None.
Proof.
  apply (split_route_defaults_to_single_pages (fun name => name) PyInt.parse
           stamp_request small_world upload_c three_pages).
  - reflexivity.
  - reflexivity.
  - reflexivity.
  - reflexivity.
  - repeat split; (reflexivity || discriminate).
  - reflexivity.
  - intros i _. reflexivity.
Defined.

